(** * Light-Novel-Generator: the generation pipeline of [main.py]

    A shallow embedding of [src/main.py] and the properties of its
    pipeline: character-list parse, outline parse, chapter generation,
    the orchestrating [main] and the text export.

    Conventions of the embedding.
    - A Python [str] is a [string]; every [ascii] is read as the code point
      of the same number, so the whitespace test below is Python's
      [str.isspace] on code points below 256.
    - A value produced by [json.loads] is a [pyval]; a [dict] is a
      [gmap string pyval] (keys of a JSON object are strings and unique).
    - A method of [BookGenerator] is a computation in the monad [M]: it
      reads and updates a [world] (the backend, the console, the file
      system) and either returns or raises.
    - The backend is an arbitrary sequence of replies, one per request; the
      text of a prompt therefore has no influence on any result and prompts
      and the request payload are not represented.
    - [json.loads], [repr] and [int] are library code and are parameters of
      the development; [json.loads] and [int] either return or raise the
      one exception the source expects of them.
    - The calls on the file system ([os.makedirs], [open]) are modelled
      where they succeed.
    - [main] is the body of the source's [main] after its first statement;
      [main_from_lines] puts [get_user_input] in front of it. *)

From Stdlib Require Import ZArith String Ascii List DecimalString Lia.
From Stdlib Require Import Floats.SpecFloat.
From stdpp Require Import base gmap strings list fin_maps.

Set Warnings "-register-all".

(** ** Python values *)

(** What [json.loads] and [response.json()] can return. *)
Inductive pyval : Type :=
| PNone
| PBool (b : bool)
| PInt (n : Z)
| PFloat (f : spec_float)
| PStr (s : string)
| PList (l : list pyval)
| PDict (d : gmap string pyval).

Inductive exn : Type :=
| TypeError
| KeyError
| IndexError
| ValueError
| AttributeError
| RequestException.

Inductive result (A : Type) : Type :=
| Ok (a : A)
| Raise (e : exn).
Arguments Ok {A} a.
Arguments Raise {A} e.

Definition is_ok {A} (r : result A) : bool :=
  match r with Ok _ => true | Raise _ => false end.

Module Py.

Definition nl : string := String (ascii_of_nat 10) EmptyString.

(** [str.isspace] on one character (code points below 256). *)
Definition isspace (c : ascii) : bool :=
  let n := nat_of_ascii c in
  ((9 <=? n) && (n <=? 13)) || ((28 <=? n) && (n <=? 32))
  || (n =? 133) || (n =? 160).

(** [s.split()]: the maximal runs of characters that are not whitespace.
    [tok] is the run being read. *)
Fixpoint split_from (tok s : string) : list string :=
  match s with
  | EmptyString => match tok with EmptyString => [] | _ => [tok] end
  | String c s' =>
      if isspace c
      then match tok with
           | EmptyString => split_from EmptyString s'
           | _ => tok :: split_from EmptyString s'
           end
      else split_from (tok +:+ String c EmptyString) s'
  end.

Definition split (s : string) : list string := split_from EmptyString s.

Fixpoint lstrip_chars (l : list ascii) : list ascii :=
  match l with
  | c :: l' => if isspace c then lstrip_chars l' else l
  | [] => []
  end.

(** [s.strip()] *)
Definition strip (s : string) : string :=
  string_of_list_ascii
    (rev (lstrip_chars (rev (lstrip_chars (list_ascii_of_string s))))).

(** [sep.join(l)] *)
Definition join (sep : string) (l : list string) : string :=
  String.concat sep l.

(** [str(n)] for an [int]. *)
Definition str_int (n : Z) : string :=
  NilZero.string_of_int (Z.to_int n).

(** [bool(v)], the truth value [not v] negates. *)
Definition truthy (v : pyval) : bool :=
  match v with
  | PNone => false
  | PBool b => b
  | PInt n => negb (n =? 0)%Z
  | PFloat f => match f with S754_zero _ => false | _ => true end
  | PStr s => match s with EmptyString => false | _ => true end
  | PList l => match l with [] => false | _ => true end
  | PDict d => negb (bool_decide (d = ∅))
  end.

(** [needle in s] for two strings. *)
Definition is_substring (needle s : string) : bool :=
  match String.index 0 needle s with Some _ => true | None => false end.

(** [key in container] for a string [key]. *)
Definition contains (key : string) (container : pyval) : result bool :=
  match container with
  | PDict d => Ok (bool_decide (is_Some (d !! key)))
  | PList l =>
      Ok (existsb
            (fun v => match v with PStr s => String.eqb s key | _ => false end)
            l)
  | PStr s => Ok (is_substring key s)
  | _ => Raise TypeError
  end.

(** [container[key]] for a string [key]. *)
Definition getitem_str (container : pyval) (key : string) : result pyval :=
  match container with
  | PDict d =>
      match d !! key with Some v => Ok v | None => Raise KeyError end
  | _ => Raise TypeError
  end.

(** [container[i]] for an [int] index; a negative index counts from the
    end. *)
Definition getitem_int (container : pyval) (i : Z) : result pyval :=
  match container with
  | PList l =>
      let n := Z.of_nat (length l) in
      let j := if (i <? 0)%Z then (i + n)%Z else i in
      if (j <? 0)%Z then Raise IndexError
      else match l !! Z.to_nat j with
           | Some v => Ok v
           | None => Raise IndexError
           end
  | PStr s =>
      let n := Z.of_nat (String.length s) in
      let j := if (i <? 0)%Z then (i + n)%Z else i in
      if (j <? 0)%Z then Raise IndexError
      else match String.get (Z.to_nat j) s with
           | Some c => Ok (PStr (String c EmptyString))
           | None => Raise IndexError
           end
  | PDict _ => Raise KeyError
  | _ => Raise TypeError
  end.

(** [range(n)] *)
Definition range (n : Z) : list Z := map Z.of_nat (seq 0 (Z.to_nat n)).

(** [os.path.join(a, b)] *)
Definition path_join (a b : string) : string :=
  match b with
  | String "/" _ => b
  | _ =>
      match rev (list_ascii_of_string a) with
      | [] => b
      | "/"%char :: _ => a +:+ b
      | _ => a +:+ "/" +:+ b
      end
  end.

End Py.

(** ** Data model (the dataclasses of [main.py]) *)

(** A dataclass does not check its field annotations: the constructor
    stores the JSON values as they are, so the fields are [pyval]s. *)
Module Character.
Record t : Type := mk {
  name : pyval;
  background : pyval;
  personality : pyval;
  goals : pyval;
  relationships : pyval
}.
End Character.

Module Scene.
Record t : Type := mk {
  content : string;
  pov_character : option string;
  location : option string
}.
End Scene.

(** [summary] is the outline's value as it was found, of any JSON type. *)
Module Chapter.
Record t : Type := mk {
  number : Z;
  title : string;
  summary : pyval;
  scenes : list Scene.t;
  word_count : Z
}.
End Chapter.

Module Book.
Record t : Type := mk {
  title : string;
  genre : string;
  target_audience : string;
  themes : list string;
  characters : list Character.t;
  chapters : list Chapter.t;
  metadata : gmap string pyval
}.

Definition set_characters (cs : list Character.t) (b : t) : t :=
  mk (title b) (genre b) (target_audience b) (themes b) cs (chapters b)
     (metadata b).

(** [book.chapters.append(chapter)] *)
Definition append_chapter (c : Chapter.t) (b : t) : t :=
  mk (title b) (genre b) (target_audience b) (themes b) (characters b)
     (chapters b ++ [c]) (metadata b).
End Book.

(** The dictionary [get_user_input] returns. *)
Module UserInput.
Record t : Type := mk {
  title : string;
  genre : string;
  themes : list string;
  num_chapters : Z
}.
End UserInput.

(** ** The world and the monad of the methods *)

(** What [requests.post] does with one request: it raises, or it returns a
    response whose [.json()] is [body] ([None] when [.json()] raises). *)
Inductive reply : Type :=
| Unreachable
| Replied (body : option pyval).

(** The lines [print] writes, one constructor per [print] of the source. *)
Inductive event : Type :=
| EvAIResponse (raw_text : string)
| EvOllamaResponseError
| EvNotAList
| EvCharacterParseFailed
| EvOutlineEcho (response : string)
| EvNoValidChapters
| EvOutlineParseFailed
| EvSkippingChapter (chapter_number : Z)
| EvNoChaptersExiting
| EvBookSaved (output_path : string).

Record world : Type := mkWorld {
  backend : nat -> reply;
  requests : nat;
  console : list event;
  dirs : gset string;
  files : gmap string string
}.

Definition M (A : Type) : Type := world -> result A * world.

Definition ret {A} (a : A) : M A := fun w => (Ok a, w).

Definition bind {A B} (m : M A) (k : A -> M B) : M B :=
  fun w =>
    match m w with
    | (Ok a, w') => k a w'
    | (Raise e, w') => (Raise e, w')
    end.

Definition lift {A} (r : result A) : M A := fun w => (r, w).

Notation "x <- m ;; k" := (bind m (fun x => k))
  (at level 100, m at next level, right associativity).
Notation "m ;;; k" := (bind m (fun _ => k))
  (at level 100, right associativity).

(** The world after one more line [e] on the console. *)
Definition printed (e : event) (w : world) : world :=
  mkWorld (backend w) (requests w) (console w ++ [e]) (dirs w) (files w).

(** [print(...)] *)
Definition print (e : event) : M unit := fun w => (Ok tt, printed e w).

(** [requests.post(self.base_url, json=payload)] followed by reading the
    body: the next reply of the backend. *)
Definition requests_post : M (option pyval) :=
  fun w =>
    let w' :=
      mkWorld (backend w) (S (requests w)) (console w) (dirs w) (files w) in
    match backend w (requests w) with
    | Unreachable => (Raise RequestException, w')
    | Replied body => (Ok body, w')
    end.

(** [os.path.exists(path)] *)
Definition path_exists (path : string) : M bool :=
  fun w =>
    (Ok (bool_decide (path ∈ dirs w)
         || bool_decide (is_Some (files w !! path))),
     w).

(** [os.makedirs(path)] where it succeeds; the directories it creates on
    the way to [path] are not recorded. *)
Definition makedirs (path : string) : M unit :=
  fun w =>
    (Ok tt,
     mkWorld (backend w) (requests w) (console w) ({[path]} ∪ dirs w)
             (files w)).

(** [with open(path, "w") as f: f.write(...)] where the file can be
    opened, with [text] everything that is written. *)
Definition write_file (path text : string) : M unit :=
  fun w =>
    (Ok tt,
     mkWorld (backend w) (requests w) (console w) (dirs w)
             (<[path := text]> (files w))).

(** A list comprehension whose element expression can raise. *)
Fixpoint comprehension {A B} (f : A -> result B) (xs : list A)
  : result (list B) :=
  match xs with
  | [] => Ok []
  | x :: xs' =>
      match f x with
      | Raise e => Raise e
      | Ok y =>
          match comprehension f xs' with
          | Raise e => Raise e
          | Ok ys => Ok (y :: ys)
          end
      end
  end.

(** [for x in xs: s = body(x, s)] *)
Fixpoint for_each {A S} (body : A -> S -> M S) (xs : list A) (s : S) : M S :=
  match xs with
  | [] => ret s
  | x :: xs' => s' <- body x s ;; for_each body xs' s'
  end.


(** ** The methods of [BookGenerator] and [main] *)

Definition character_fields : gset string :=
  {[ "name"; "background"; "personality"; "goals"; "relationships" ]}.

(** The constructor call of [create_characters], [Character] applied to the
    keywords of [char]: [char] has to be a mapping, every field has to be
    among its keys, and it has to have no other key. *)
Definition Character_init (char : pyval) : result Character.t :=
  match char with
  | PDict kw =>
      match kw !! "name", kw !! "background", kw !! "personality",
            kw !! "goals", kw !! "relationships" with
      | Some n, Some b, Some p, Some g, Some r =>
          if bool_decide (dom kw ⊆ character_fields)
          then Ok (Character.mk n b p g r)
          else Raise TypeError
      | _, _, _, _, _ => Raise TypeError
      end
  | _ => Raise TypeError
  end.

(** The body of the [try] of [generate_response]:
    [response.json().get("response", "").strip()]. *)
Definition response_text (body : option pyval) : result string :=
  match body with
  | None => Raise ValueError
  | Some (PDict result) =>
      match default (PStr "") (result !! "response") with
      | PStr s => Ok (Py.strip s)
      | _ => Raise AttributeError
      end
  | Some _ => Raise AttributeError
  end.

Definition generate_response : M string :=
  body <- requests_post ;;
  match response_text body with
  | Ok raw_text => print (EvAIResponse raw_text) ;;; ret raw_text
  | Raise _ => print EvOllamaResponseError ;;; ret ""
  end.

Definition initialize_book (user_input : UserInput.t) : Book.t :=
  Book.mk (UserInput.title user_input)
          (UserInput.genre user_input)
          "General"
          (UserInput.themes user_input)
          []
          []
          {[ "created_by" := PStr "AI"; "version" := PStr "1.0" ]}.

Definition placeholder_chapter : Chapter.t :=
  Chapter.mk 0 "" (PStr "") [Scene.mk "" None None] 0.

Definition generate_chapter (chapter_number : Z) (chapter_summary : pyval)
  : M Chapter.t :=
  if negb (Py.truthy chapter_summary)
  then print (EvSkippingChapter chapter_number) ;;; ret placeholder_chapter
  else
    content <- generate_response ;;
    ret (Chapter.mk chapter_number
                    ("Chapter " +:+ Py.str_int chapter_number)
                    chapter_summary
                    [Scene.mk content None None]
                    (Z.of_nat (length (Py.split content)))).

(** The outcome of [main]: which of its two [return]s was reached, with the
    values of [book] and [output_path] there. *)
Inductive run_end : Type :=
| Aborted
| Exported (book : Book.t) (output_path : string).

Section Pipeline.

(** [json.loads]: [None] stands for [json.JSONDecodeError], the exception
    the source handles.  The other ways [json.loads] can fail (a number
    literal beyond the digit limit, nesting beyond the recursion limit) are
    outside this parameter. *)
Variable json_loads : string -> option pyval.

(** [repr] of a value that is not a string. *)
Variable py_repr : pyval -> string.

(** [str(v)], what an f-string puts for [{v}]. *)
Definition py_str (v : pyval) : string :=
  match v with
  | PStr s => s
  | _ => py_repr v
  end.

Definition create_characters : M (list Character.t) :=
  response <- generate_response ;;
  match json_loads response with
  | Some (PList characters) => lift (comprehension Character_init characters)
  | Some _ => print EvNotAList ;;; ret []
  | None => print EvCharacterParseFailed ;;; ret []
  end.

Definition empty_outline : pyval := PDict {[ "chapters" := PList [] ]}.

Definition is_list (v : pyval) : bool :=
  match v with PList _ => true | _ => false end.

Definition create_plot_outline : M pyval :=
  response <- generate_response ;;
  print (EvOutlineEcho response) ;;;
  match json_loads response with
  | Some plot =>
      has_key <- lift (Py.contains "chapters" plot) ;;
      valid <- (if has_key : bool
                then chapters <- lift (Py.getitem_str plot "chapters") ;;
                     ret (is_list chapters)
                else ret false) ;;
      if valid : bool
      then ret plot
      else print EvNoValidChapters ;;; ret empty_outline
  | None => print EvOutlineParseFailed ;;; ret empty_outline
  end.

Definition scene_text (scene : Scene.t) : string :=
  Scene.content scene +:+ Py.nl +:+ Py.nl.

(** The first [f.write] of the chapter loop. *)
Definition chapter_header (chapter : Chapter.t) : string :=
  "Chapter " +:+ Py.str_int (Chapter.number chapter) +:+ ": "
    +:+ Chapter.title chapter +:+ Py.nl.

Definition chapter_text (chapter : Chapter.t) : string :=
  chapter_header chapter
  +:+ (py_str (Chapter.summary chapter) +:+ Py.nl +:+ Py.nl)
  +:+ String.concat "" (map scene_text (Chapter.scenes chapter)).

(** Everything [export_book] writes to the file, in order. *)
Definition book_text (book : Book.t) : string :=
  ("Title: " +:+ Book.title book +:+ Py.nl)
  +:+ ("Genre: " +:+ Book.genre book +:+ Py.nl)
  +:+ ("Themes: " +:+ Py.join ", " (Book.themes book) +:+ Py.nl +:+ Py.nl)
  +:+ String.concat "" (map chapter_text (Book.chapters book)).

Definition export_book (book : Book.t) (output_dir : string) : M string :=
  present <- path_exists output_dir ;;
  (if present : bool then ret tt else makedirs output_dir) ;;;
  let output_path := Py.path_join output_dir "generated_novel.txt" in
  write_file output_path (book_text book) ;;;
  ret output_path.

(** The body of the [for] loop of [main]. *)
Definition chapter_step (plot : pyval) (i : Z) (book : Book.t) : M Book.t :=
  chapters <- lift (Py.getitem_str plot "chapters") ;;
  entry <- lift (Py.getitem_int chapters i) ;;
  chapter_summary <- lift (Py.getitem_str entry "summary") ;;
  chapter <- generate_chapter (i + 1) chapter_summary ;;
  ret (Book.append_chapter chapter book).

(** [main], from the dictionary [get_user_input] returned. *)
Definition main (user_input : UserInput.t) : M run_end :=
  let book := initialize_book user_input in
  characters <- create_characters ;;
  let book := Book.set_characters characters book in
  plot <- create_plot_outline ;;
  chapters <- lift (Py.getitem_str plot "chapters") ;;
  if negb (Py.truthy chapters)
  then print EvNoChaptersExiting ;;; ret Aborted
  else
    book <- for_each (chapter_step plot)
                     (Py.range (UserInput.num_chapters user_input)) book ;;
    output_path <- export_book book "output" ;;
    print (EvBookSaved output_path) ;;;
    ret (Exported book output_path).

End Pipeline.

(** ** Auxiliary definitions of the statements *)

(** The text of all scenes of a chapter, one after the other. *)
Definition scenes_content (chapter : Chapter.t) : string :=
  String.concat "" (map Scene.content (Chapter.scenes chapter)).

(** The world after one answered request whose line on the console is [e]. *)
Definition answered (e : event) (w : world) : world :=
  mkWorld (backend w) (S (requests w)) (console w ++ [e]) (dirs w) (files w).

(** The completion text and the console line of a reply body. *)
Definition completion (body : option pyval) : string * event :=
  match response_text body with
  | Ok raw_text => (raw_text, EvAIResponse raw_text)
  | Raise _ => ("", EvOllamaResponseError)
  end.


(** A JSON value of the shape the character-list parse expects of an
    element: an object whose keys are the five fields and nothing else. *)
Definition well_formed_character (v : pyval) : Prop :=
  exists d, v = PDict d /\ dom d = character_fields.

(** [c] carries the values of the object [v], field by field. *)
Definition copied_verbatim (v : pyval) (c : Character.t) : Prop :=
  forall d, v = PDict d ->
    d !! "name" = Some (Character.name c)
    /\ d !! "background" = Some (Character.background c)
    /\ d !! "personality" = Some (Character.personality c)
    /\ d !! "goals" = Some (Character.goals c)
    /\ d !! "relationships" = Some (Character.relationships c).

(** An element that lacks one of the five fields. *)
Definition omits_a_field (v : pyval) : Prop :=
  exists d field,
    v = PDict d /\ field ∈ character_fields /\ d !! field = None.


(** ** Frame conditions *)

(** [w'] has the backend and the file system of [w], and at least its
    requests. *)
Definition same_storage (w w' : world) : Prop :=
  backend w' = backend w /\ dirs w' = dirs w /\ files w' = files w
  /\ requests w <= requests w'.

(** A chapter as [generate_chapter] builds it for position [n]: the
    placeholder, or an expansion numbered [n]. *)
Definition generated_for (n : Z) (chapter : Chapter.t) : Prop :=
  chapter = placeholder_chapter
  \/ (Chapter.number chapter = n
      /\ Py.truthy (Chapter.summary chapter) = true
      /\ Chapter.title chapter = "Chapter " +:+ Py.str_int n).

(** ** The layout of the exported document, as the specification words it *)

(** A document given by its lines: every line is followed by a newline. *)
Definition unlines (ls : list string) : string :=
  String.concat "" (map (fun l => l +:+ Py.nl) ls).





(** ** Sample responses and worlds *)

Module Sample.

Definition dq : string := String (ascii_of_nat 34) EmptyString.

Definition quoted (s : string) : string := dq +:+ s +:+ dq.

(** [5] *)
Definition five : string := "5".

(** [[]] *)
Definition no_characters : string := "[]".

(** [[{"name": "A"}]] *)
Definition name_only : string :=
  "[{" +:+ quoted "name" +:+ ": " +:+ quoted "A" +:+ "}]".

(** [[{"name": "A", "background": "B", "personality": "P", "goals": "G",
      "relationships": {}}]] *)
Definition one_character : string :=
  "[{" +:+ quoted "name" +:+ ": " +:+ quoted "A" +:+ ", "
    +:+ quoted "background" +:+ ": " +:+ quoted "B" +:+ ", "
    +:+ quoted "personality" +:+ ": " +:+ quoted "P" +:+ ", "
    +:+ quoted "goals" +:+ ": " +:+ quoted "G" +:+ ", "
    +:+ quoted "relationships" +:+ ": {}}]".

(** [{}] *)
Definition empty_object : string := "{}".

(** [{"chapters": []}] *)
Definition outline_empty : string := "{" +:+ quoted "chapters" +:+ ": []}".

(** [{"chapters": [{"summary": "S1"}]}] *)
Definition outline_one : string :=
  "{" +:+ quoted "chapters" +:+ ": [{" +:+ quoted "summary" +:+ ": "
    +:+ quoted "S1" +:+ "}]}".

(** [{"chapters": [{"title": "A"}]}] *)
Definition outline_no_summary : string :=
  "{" +:+ quoted "chapters" +:+ ": [{" +:+ quoted "title" +:+ ": "
    +:+ quoted "A" +:+ "}]}".

(** [{"chapters": [{"summary": ""}]}] *)
Definition outline_blank_summary : string :=
  "{" +:+ quoted "chapters" +:+ ": [{" +:+ quoted "summary" +:+ ": "
    +:+ quoted EmptyString +:+ "}]}".

Definition outline_of (entries : list pyval) : pyval :=
  PDict {[ "chapters" := PList entries ]}.

(** The values [json.loads] gives for the sample texts; any other text is
    taken to be malformed. *)
Definition table : list (string * pyval) :=
  [ (five, PInt 5);
    (no_characters, PList []);
    (name_only, PList [PDict {[ "name" := PStr "A" ]}]);
    (one_character,
     PList [PDict {[ "name" := PStr "A"; "background" := PStr "B";
                     "personality" := PStr "P"; "goals" := PStr "G";
                     "relationships" := PDict ∅ ]}]);
    (empty_object, PDict ∅);
    (outline_empty, outline_of []);
    (outline_one, outline_of [PDict {[ "summary" := PStr "S1" ]}]);
    (outline_no_summary, outline_of [PDict {[ "title" := PStr "A" ]}]);
    (outline_blank_summary,
     outline_of [PDict {[ "summary" := PStr EmptyString ]}]) ].

Fixpoint assoc (key : string) (l : list (string * pyval)) : option pyval :=
  match l with
  | [] => None
  | (k, v) :: l' => if String.eqb k key then Some v else assoc key l'
  end.

Definition json_loads (text : string) : option pyval := assoc text table.

(** A [repr] for the samples; no sample prints a value that is not a
    string. *)
Definition py_repr (v : pyval) : string := "?".

(** A backend that answers the k-th request with the k-th text, wrapped as
    [{"response": text}], and is unreachable afterwards; an empty console
    and an empty file system. *)
Definition served (texts : list string) : world :=
  mkWorld
    (fun k =>
       match texts !! k with
       | Some text => Replied (Some (PDict {[ "response" := PStr text ]}))
       | None => Unreachable
       end)
    0 [] ∅ ∅.

(** The same, with a backend that answers every later request with the
    text [The end]. *)
Definition always_served (texts : list string) : world :=
  mkWorld
    (fun k =>
       Replied (Some (PDict {[ "response" := PStr (default "The end"
                                                         (texts !! k)) ]})))
    0 [] ∅ ∅.

Definition user (num_chapters : Z) : UserInput.t :=
  UserInput.mk "T" "fantasy" ["hope"; "betrayal"] num_chapters.

(** The book of the run whose only outline entry has an empty summary. *)
Definition skipped_book : Book.t :=
  Book.append_chapter placeholder_chapter (initialize_book (user 1)).

(** The book of the run whose only outline entry has the summary [S1] and
    is expanded to [Once upon a time]. *)
Definition told_book : Book.t :=
  Book.append_chapter
    (Chapter.mk 1 "Chapter 1" (PStr "S1")
                [Scene.mk "Once upon a time" None None] 4)
    (initialize_book (user 1)).

End Sample.

(** ** [get_user_input] *)

(** [s.split(",")]: the pieces between the commas, in order. *)
Fixpoint split_comma (s : string) : list string :=
  match s with
  | EmptyString => [EmptyString]
  | String c s' =>
      if Ascii.eqb c ","
      then EmptyString :: split_comma s'
      else match split_comma s' with
           | tok :: toks => String c tok :: toks
           | [] => [String c EmptyString]
           end
  end.

Section Input.

(** [int(text)]: [None] stands for [ValueError]. *)
Variable py_int : string -> option Z.

(** [get_user_input], from the four lines that [input] reads, in order. *)
Definition get_user_input (title genre themes num_chapters : string)
  : result UserInput.t :=
  match py_int num_chapters with
  | Some n => Ok (UserInput.mk title genre (split_comma themes) n)
  | None => Raise ValueError
  end.

End Input.

(** ** [main] with its first statement *)

Section Program.

Variable py_int : string -> option Z.
Variable json_loads : string -> option pyval.
Variable py_repr : pyval -> string.

(** [main] as a whole, from the four lines typed: [get_user_input], then
    the stages of [main].  A chapter-count line that [int] rejects ends the
    run with [ValueError] before anything else is done. *)
Definition main_from_lines (title genre themes num_chapters : string)
  : M run_end :=
  user_input <- lift (get_user_input py_int title genre themes num_chapters) ;;
  main json_loads py_repr user_input.

End Program.

(** ** Further definitions of the statements *)

(** The characters of a string. *)
Definition chars (s : string) : list ascii := list_ascii_of_string s.

(** The number of commas of a string. *)
Definition commas (s : string) : nat :=
  length (List.filter (fun c => Ascii.eqb c ",") (chars s)).

(** What the reply body [body] gives as completion text: the stripped
    [response] when the body is an object whose [response] is a string, and
    the empty string in every other case. *)
Definition readable_text (body : option pyval) : string :=
  match body with
  | Some (PDict d) =>
      match d !! "response" with
      | Some (PStr s) => Py.strip s
      | _ => ""
      end
  | _ => ""
  end.

(** A chapter that is an expansion: its summary counts as true. *)
Definition expanded (chapter : Chapter.t) : bool :=
  Py.truthy (Chapter.summary chapter).

(** The chapter [generate_chapter] builds for position [n] from the summary
    [s]: the placeholder when [s] counts as false, otherwise a chapter with
    number [n], the title made from [n] and the summary [s]. *)
Definition chapter_of (n : Z) (s : pyval) (chapter : Chapter.t) : Prop :=
  if Py.truthy s
  then Chapter.number chapter = n
       /\ Chapter.summary chapter = s
       /\ Chapter.title chapter = "Chapter " +:+ Py.str_int n
  else chapter = placeholder_chapter.

(** The book after the chapters [cs] were appended one by one. *)
Definition with_chapters (cs : list Chapter.t) (book : Book.t) : Book.t :=
  fold_left (fun b c => Book.append_chapter c b) cs book.

(** The file system: directories and files. *)
Definition storage (w : world) : gset string * gmap string string :=
  (dirs w, files w).

(** The exceptions a step of the chapter loop can end with. *)
Definition loop_exception (e : exn) : Prop :=
  e = TypeError \/ e = KeyError \/ e = IndexError \/ e = RequestException.

(** Why the loop step for position [i] (counted from 0) raises [e]: there is
    no entry at that position ([IndexError]); the entry is no object
    ([TypeError]); the entry is an object without a [summary] key
    ([KeyError]); or the entry has a summary that counts as true and the
    request to expand it failed. *)
Definition fails_at (entries : list pyval) (i : nat) (e : exn) : Prop :=
  match entries !! i with
  | None => e = IndexError
  | Some (PDict d) =>
      match d !! "summary" with
      | None => e = KeyError
      | Some s => e = RequestException /\ Py.truthy s = true
      end
  | Some _ => e = TypeError
  end.

Module Sample2.

(** The values [int] gives for the sample lines; any other line is taken
    to be no integer. *)
Definition py_int (text : string) : option Z :=
  if String.eqb text "2" then Some 2%Z
  else if String.eqb text "0" then Some 0%Z
  else None.

(** [["chapters"]] *)
Definition chapters_word : string := "[" +:+ Sample.quoted "chapters" +:+ "]".

(** [{"error": "model not found"}], a reply body without [response]. *)
Definition error_body : option pyval :=
  Some (PDict {[ "error" := PStr "model not found" ]}).

(** A [json.loads] that knows the texts of [Sample.table] and
    [["chapters"]]; the empty text is malformed. *)
Definition json_loads (text : string) : option pyval :=
  if String.eqb text chapters_word then Some (PList [PStr "chapters"])
  else Sample.json_loads text.

(** A backend that answers every request with [error_body]. *)
Definition failing : world :=
  mkWorld (fun _ => Replied error_body) 0 [] ∅ ∅.

End Sample2.
(** ** Reasoning about computations *)

Example split_words : Py.split (" a  bc" +:+ Py.nl +:+ "d ") = ["a"; "bc"; "d"].
Proof. reflexivity. Qed.

Example split_blank : Py.split "  " = [].
Proof. reflexivity. Qed.

Example strip_both : Py.strip ("  a b " +:+ Py.nl) = "a b".
Proof. reflexivity. Qed.

Example str_int_neg : Py.str_int (-12) = "-12".
Proof. reflexivity. Qed.

Example range_3 : Py.range 3 = [0; 1; 2]%Z.
Proof. reflexivity. Qed.

Example range_neg : Py.range (-2) = [].
Proof. reflexivity. Qed.

Example contains_key :
  Py.contains "chapters" (PDict {[ "chapters" := PList [] ]}) = Ok true.
Proof. reflexivity. Qed.

Example contains_substring :
  Py.contains "chapters" (PStr "all chapters here") = Ok true.
Proof. reflexivity. Qed.

Example contains_no_substring :
  Py.contains "chapters" (PStr "chapter") = Ok false.
Proof. reflexivity. Qed.

Example contains_list_element :
  Py.contains "chapters" (PList [PInt 1; PStr "chapters"]) = Ok true.
Proof. reflexivity. Qed.

Example contains_number : Py.contains "chapters" (PInt 5) = Raise TypeError.
Proof. reflexivity. Qed.

Example getitem_negative :
  Py.getitem_int (PList [PInt 1; PInt 2]) (-1) = Ok (PInt 2).
Proof. reflexivity. Qed.

Example path_join_output :
  Py.path_join "output" "generated_novel.txt" = "output/generated_novel.txt".
Proof. reflexivity. Qed.

Lemma bind_ok {A B} (m : M A) (k : A -> M B) w a w' :
  m w = (Ok a, w') -> bind m k w = k a w'.
Proof. intros H. unfold bind. now rewrite H. Qed.

Lemma bind_raise {A B} (m : M A) (k : A -> M B) w e w' :
  m w = (Raise e, w') -> bind m k w = (Raise e, w').
Proof. intros H. unfold bind. now rewrite H. Qed.

Lemma bind_ok_inv {A B} (m : M A) (k : A -> M B) w b w' :
  bind m k w = (Ok b, w') ->
  exists a w1, m w = (Ok a, w1) /\ k a w1 = (Ok b, w').
Proof.
  unfold bind. destruct (m w) as [[a|e] w1]; intros H.
  - now exists a, w1.
  - discriminate.
Qed.

Lemma string_app_assoc (a b c : string) : (a +:+ b) +:+ c = a +:+ (b +:+ c).
Proof.
  induction a as [|x a IH]; [reflexivity|].
  change (String x ((a +:+ b) +:+ c) = String x (a +:+ (b +:+ c))).
  now rewrite IH.
Qed.

Lemma string_app_nil_r (a : string) : a +:+ "" = a.
Proof.
  induction a as [|x a IH]; [reflexivity|].
  change (String x (a +:+ "") = String x a). now rewrite IH.
Qed.

(** *** [generate_response] *)

Lemma generate_response_replied w body :
  backend w (requests w) = Replied body ->
  generate_response w
  = (Ok (fst (completion body)), answered (snd (completion body)) w).
Proof.
  intros H. unfold generate_response, bind, requests_post, completion.
  rewrite H. destruct (response_text body); reflexivity.
Qed.

Lemma generate_response_unreachable w :
  backend w (requests w) = Unreachable ->
  fst (generate_response w) = Raise RequestException.
Proof.
  intros H. unfold generate_response, bind, requests_post. now rewrite H.
Qed.

Lemma generate_response_raises w e w' :
  generate_response w = (Raise e, w') ->
  e = RequestException /\ backend w (requests w) = Unreachable.
Proof.
  unfold generate_response, bind, requests_post.
  destruct (backend w (requests w)) as [|body]; [intros [= <- _]; auto|].
  destruct (response_text body); discriminate.
Qed.

(** *** [generate_chapter] *)

(** The path of C3 that the code has.  A requested chapter whose outline
    entry has a summary that is the empty string, or any other value that
    counts as false ([null], [false], [0], an empty array or object), is
    answered by the placeholder chapter:
    number 0, empty title, empty summary, exactly one scene whose content
    is the empty string, and word count 0.  Nothing is raised, no request
    is sent, and the loop step appends the placeholder to the book. *)
Theorem falsy_summary_gives_placeholder
    (plot chapters entry chapter_summary : pyval) (i : Z) (book : Book.t)
    (w : world) :
  Py.getitem_str plot "chapters" = Ok chapters ->
  Py.getitem_int chapters i = Ok entry ->
  Py.getitem_str entry "summary" = Ok chapter_summary ->
  Py.truthy chapter_summary = false ->
  exists w',
    generate_chapter (i + 1) chapter_summary w = (Ok placeholder_chapter, w')
    /\ chapter_step plot i book w
       = (Ok (Book.append_chapter placeholder_chapter book), w')
    /\ requests w' = requests w
    /\ Chapter.number placeholder_chapter = 0%Z
    /\ Chapter.title placeholder_chapter = ""
    /\ Chapter.summary placeholder_chapter = PStr ""
    /\ Chapter.scenes placeholder_chapter = [Scene.mk "" None None]
    /\ Chapter.word_count placeholder_chapter = 0%Z.
Proof.
  intros Hc He Hs Hf.
  exists (printed (EvSkippingChapter (i + 1)) w).
  assert (Hg : generate_chapter (i + 1) chapter_summary w
               = (Ok placeholder_chapter,
                  mkWorld (backend w) (requests w)
                          (console w ++ [EvSkippingChapter (i + 1)])
                          (dirs w) (files w))).
  { unfold generate_chapter. rewrite Hf. reflexivity. }
  split; [exact Hg|]. split; [|repeat split].
  unfold chapter_step, bind, lift. rewrite Hc, He, Hs, Hg. reflexivity.
Qed.

(** C7. Whatever [generate_chapter] returns, placeholder or expanded, has a
    word count equal to the number of whitespace-delimited tokens of the
    concatenation of its scenes' content; and the only way it does not
    return is a request the backend did not answer. *)
Theorem word_count_is_token_count
    (chapter_number : Z) (chapter_summary : pyval) (w : world) :
  match generate_chapter chapter_number chapter_summary w with
  | (Ok chapter, _) =>
      Chapter.word_count chapter
      = Z.of_nat (length (Py.split (scenes_content chapter)))
  | (Raise e, _) =>
      e = RequestException /\ backend w (requests w) = Unreachable
  end.
Proof.
  unfold generate_chapter.
  destruct (Py.truthy chapter_summary); cbn [negb].
  - unfold bind.
    destruct (generate_response w) as [[content|e] w1] eqn:Hg.
    + reflexivity.
    + now apply generate_response_raises in Hg.
  - reflexivity.
Qed.


(** *** [create_characters] *)

Lemma Character_init_well_formed (v : pyval) :
  well_formed_character v ->
  exists c, Character_init v = Ok c /\ copied_verbatim v c.
Proof.
  intros (d & -> & Hdom).
  assert (Hin : forall k, k ∈ character_fields -> is_Some (d !! k)).
  { intros k Hk. apply elem_of_dom. now rewrite Hdom. }
  destruct (Hin "name") as [n Hn]; [set_solver|].
  destruct (Hin "background") as [b Hb]; [set_solver|].
  destruct (Hin "personality") as [p Hp]; [set_solver|].
  destruct (Hin "goals") as [g Hg]; [set_solver|].
  destruct (Hin "relationships") as [r Hr]; [set_solver|].
  exists (Character.mk n b p g r). split.
  - unfold Character_init. rewrite Hn, Hb, Hp, Hg, Hr.
    rewrite bool_decide_eq_true_2; [reflexivity|]. now rewrite Hdom.
  - intros d' [= <-]. cbn. auto.
Qed.

Lemma comprehension_well_formed (elems : list pyval) :
  Forall well_formed_character elems ->
  exists cs,
    comprehension Character_init elems = Ok cs
    /\ Forall2 copied_verbatim elems cs.
Proof.
  induction 1 as [|v elems Hv _ (cs & Hcs & Hall)].
  - exists []. split; [reflexivity|constructor].
  - destruct (Character_init_well_formed v Hv) as (c & Hc & Hcopy).
    exists (c :: cs). split.
    + cbn. now rewrite Hc, Hcs.
    + now constructor.
Qed.

Lemma Character_init_omits (v : pyval) :
  omits_a_field v -> Character_init v = Raise TypeError.
Proof.
  intros (d & field & -> & Hin & Hnone). unfold Character_init.
  assert (Hcases : field = "name" \/ field = "background"
                   \/ field = "personality" \/ field = "goals"
                   \/ field = "relationships").
  { unfold character_fields in Hin. set_unfold in Hin. tauto. }
  destruct Hcases as [->|[->|[->|[->| ->]]]]; rewrite Hnone;
    repeat (match goal with |- context [match ?x with _ => _ end] =>
                              destruct x end); reflexivity.
Qed.

Section Parser.

Variable json_loads : string -> option pyval.

(** The path of C1 that the code has.  When the response decodes to a JSON
    value that is not an array, [create_characters] returns the empty
    sequence and does not raise; the console gets the line that no list was
    returned. *)
Theorem non_array_gives_no_characters
    (w w' : world) (response : string) (v : pyval) :
  generate_response w = (Ok response, w') ->
  json_loads response = Some v ->
  is_list v = false ->
  create_characters json_loads w = (Ok [], printed EvNotAList w').
Proof.
  intros Hg Hl Hv. unfold create_characters.
  rewrite (bind_ok _ _ _ _ _ Hg), Hl.
  destruct v; try reflexivity. discriminate.
Qed.

(** C6. When the response decodes to an array of N objects, each with
    exactly the fields name, background, personality, goals and
    relationships, [create_characters] returns N characters, the i-th of
    which holds the five values of the i-th object as they are. *)
Theorem well_formed_array_gives_characters
    (w w' : world) (response : string) (elems : list pyval) :
  generate_response w = (Ok response, w') ->
  json_loads response = Some (PList elems) ->
  Forall well_formed_character elems ->
  exists cs,
    create_characters json_loads w = (Ok cs, w')
    /\ length cs = length elems
    /\ forall (i : nat) (d : gmap string pyval),
         elems !! i = Some (PDict d) ->
         exists c,
           cs !! i = Some c
           /\ d !! "name" = Some (Character.name c)
           /\ d !! "background" = Some (Character.background c)
           /\ d !! "personality" = Some (Character.personality c)
           /\ d !! "goals" = Some (Character.goals c)
           /\ d !! "relationships" = Some (Character.relationships c).
Proof.
  intros Hg Hl Hwf.
  destruct (comprehension_well_formed elems Hwf) as (cs & Hcs & Hall).
  exists cs. split; [|split].
  - unfold create_characters. rewrite (bind_ok _ _ _ _ _ Hg), Hl.
    unfold lift. now rewrite Hcs.
  - symmetry. eapply Forall2_length, Hall.
  - intros i d Hi.
    destruct (Forall2_lookup_l _ _ _ _ _ Hall Hi) as (c & Hc & Hcopy).
    exists c. split; [exact Hc|]. now apply Hcopy.
Qed.

(** *** [create_plot_outline] *)

(** The paths of C5 that the code has.  When the response is not valid
    JSON, or decodes to an object that has no [chapters] key, or to an
    object whose [chapters] value is not an array, [create_plot_outline]
    returns the empty outline, whose [chapters] is the empty list, and does
    not raise. *)
Theorem bad_outline_gives_empty_outline
    (w w' : world) (response : string) :
  generate_response w = (Ok response, w') ->
  json_loads response = None
  \/ (exists d, json_loads response = Some (PDict d)
                /\ (d !! "chapters" = None
                    \/ exists v, d !! "chapters" = Some v
                                 /\ is_list v = false)) ->
  exists w'',
    create_plot_outline json_loads w = (Ok empty_outline, w'')
    /\ Py.getitem_str empty_outline "chapters" = Ok (PList [])
    /\ requests w'' = requests w'
    /\ files w'' = files w'.
Proof.
  intros Hg Hbad. unfold create_plot_outline.
  rewrite (bind_ok _ _ _ _ _ Hg).
  destruct Hbad as [Hnone|(d & Hd & Hch)].
  - rewrite Hnone. eexists. split; [reflexivity|]. repeat split.
  - rewrite Hd. unfold bind, lift, print, ret. cbn [Py.contains Py.getitem_str].
    destruct Hch as [Hch|(v & Hch & Hv)]; rewrite Hch.
    + rewrite bool_decide_eq_false_2 by (intros [? ?]; discriminate).
      eexists. split; [reflexivity|]. repeat split.
    + rewrite bool_decide_eq_true_2 by eauto. rewrite Hv.
      eexists. split; [reflexivity|]. repeat split.
Qed.

End Parser.

(** *** Frame lemmas *)

Lemma same_storage_refl w : same_storage w w.
Proof. unfold same_storage. auto. Qed.

Lemma same_storage_trans w1 w2 w3 :
  same_storage w1 w2 -> same_storage w2 w3 -> same_storage w1 w3.
Proof.
  unfold same_storage. intros (Hb & Hd & Hf & Hr) (Hb' & Hd' & Hf' & Hr').
  repeat split; try congruence. lia.
Qed.

Lemma print_storage e w : same_storage w (printed e w).
Proof. unfold same_storage, printed. cbn. auto. Qed.

Lemma generate_response_storage w :
  same_storage w (snd (generate_response w)).
Proof.
  unfold generate_response, bind, requests_post, same_storage.
  destruct (backend w (requests w)) as [|body]; cbn; [auto|].
  destruct (response_text body); cbn; auto.
Qed.

Lemma generate_chapter_storage n s w :
  same_storage w (snd (generate_chapter n s w)).
Proof.
  unfold generate_chapter. destruct (Py.truthy s); cbn [negb].
  - unfold bind. pose proof (generate_response_storage w) as H.
    destruct (generate_response w) as [[c|e] w1]; exact H.
  - apply print_storage.
Qed.

Section Frames.

Variable json_loads : string -> option pyval.

Lemma create_characters_storage w :
  same_storage w (snd (create_characters json_loads w)).
Proof.
  unfold create_characters, bind.
  pose proof (generate_response_storage w) as H.
  destruct (generate_response w) as [[response|e] w1]; cbn in H; [|exact H].
  destruct (json_loads response) as [[]|]; cbn;
    try (eapply same_storage_trans; [exact H|apply print_storage]).
  unfold lift. exact H.
Qed.

Lemma create_plot_outline_storage w :
  same_storage w (snd (create_plot_outline json_loads w)).
Proof.
  unfold create_plot_outline, bind.
  pose proof (generate_response_storage w) as H.
  destruct (generate_response w) as [[response|e] w1]; cbn in H; [|exact H].
  assert (H1 : same_storage w (printed (EvOutlineEcho response) w1)).
  { eapply same_storage_trans; [exact H|apply print_storage]. }
  change (print (EvOutlineEcho response) w1)
    with (Ok tt, printed (EvOutlineEcho response) w1).
  set (w2 := printed (EvOutlineEcho response) w1) in *.
  cbv iota beta.
  assert (H2 : forall e, same_storage w (printed e w2)).
  { intros e0. eapply same_storage_trans; [exact H1|apply print_storage]. }
  destruct (json_loads response) as [plot|]; [|apply H2].
  unfold lift.
  destruct (Py.contains "chapters" plot) as [[|]|e]; [| apply H2 | exact H1].
  destruct (Py.getitem_str plot "chapters") as [v|e]; [|exact H1].
  cbn [ret]. destruct (is_list v); [exact H1|apply H2].
Qed.

(** What [create_plot_outline] returns is an object whose [chapters] is a
    list. *)
Lemma create_plot_outline_returns_outline w plot w' :
  create_plot_outline json_loads w = (Ok plot, w') ->
  exists entries, Py.getitem_str plot "chapters" = Ok (PList entries).
Proof.
  unfold create_plot_outline. intros H.
  apply bind_ok_inv in H as (response & w1 & _ & H).
  apply bind_ok_inv in H as (? & w2 & _ & H).
  destruct (json_loads response) as [plot0|].
  - apply bind_ok_inv in H as (has_key & w3 & _ & H).
    apply bind_ok_inv in H as (valid & w4 & Hvalid & H).
    destruct valid.
    + injection H as <- _. destruct has_key; [|discriminate].
      apply bind_ok_inv in Hvalid as (chapters & w5 & Hch & Hl).
      injection Hl as Hl _. unfold lift in Hch. injection Hch as Hch _.
      destruct chapters; try discriminate. eauto.
    + apply bind_ok_inv in H as (? & w5 & _ & H). injection H as <- _.
      now exists [].
  - apply bind_ok_inv in H as (? & w3 & _ & H). injection H as <- _.
    now exists [].
Qed.

End Frames.

(** *** The chapter loop *)

Lemma getitem_int_nth (entries : list pyval) (i : nat) :
  Py.getitem_int (PList entries) (Z.of_nat i)
  = match entries !! i with Some e => Ok e | None => Raise IndexError end.
Proof.
  unfold Py.getitem_int.
  destruct (Z.ltb_spec (Z.of_nat i) 0) as [Hneg|_]; [lia|].
  destruct (Z.ltb_spec (Z.of_nat i) 0) as [Hneg|_]; [lia|].
  now rewrite Nat2Z.id.
Qed.

Lemma generate_chapter_ok_inv n s w c w' :
  generate_chapter n s w = (Ok c, w') -> generated_for n c.
Proof.
  unfold generate_chapter, generated_for.
  destruct (Py.truthy s) eqn:Ht; cbn [negb].
  - unfold bind. destruct (generate_response w) as [[content|e] w1];
      [|discriminate].
    intros [= <- _]. right. cbn. auto.
  - intros [= <- _]. now left.
Qed.

Lemma generate_chapter_reachable n s w :
  backend w (requests w) <> Unreachable ->
  exists c, fst (generate_chapter n s w) = Ok c.
Proof.
  intros Hb. unfold generate_chapter.
  destruct (Py.truthy s); cbn [negb]; [|now eexists].
  unfold bind.
  destruct (generate_response w) as [[content|e] w1] eqn:Hg; [now eexists|].
  now apply generate_response_raises in Hg.
Qed.

Lemma chapter_step_ok_inv plot i book w book' w' :
  chapter_step plot i book w = (Ok book', w') ->
  exists c, book' = Book.append_chapter c book /\ generated_for (i + 1) c.
Proof.
  unfold chapter_step, bind, lift.
  destruct (Py.getitem_str plot "chapters") as [chapters|]; [|discriminate].
  destruct (Py.getitem_int chapters i) as [entry|]; [|discriminate].
  destruct (Py.getitem_str entry "summary") as [s|]; [|discriminate].
  destruct (generate_chapter (i + 1) s w) as [[c|e] w1] eqn:Hg;
    [|discriminate].
  intros [= <- _]. exists c. split; [reflexivity|].
  eapply generate_chapter_ok_inv, Hg.
Qed.

Lemma chapter_step_completes plot entries (i : nat) entry book w :
  Py.getitem_str plot "chapters" = Ok (PList entries) ->
  entries !! i = Some entry ->
  is_ok (Py.getitem_str entry "summary") = true ->
  backend w (requests w) <> Unreachable ->
  exists c w',
    chapter_step plot (Z.of_nat i) book w
    = (Ok (Book.append_chapter c book), w')
    /\ same_storage w w' /\ requests w' <= S (requests w).
Proof.
  intros Hp Hi Hs Hb. unfold chapter_step, bind, lift.
  rewrite Hp, getitem_int_nth, Hi.
  destruct (Py.getitem_str entry "summary") as [s|]; [|discriminate].
  destruct (generate_chapter_reachable (Z.of_nat i + 1) s w Hb) as [c Hc].
  pose proof (generate_chapter_storage (Z.of_nat i + 1) s w) as Hst.
  assert (Hreq : requests (snd (generate_chapter (Z.of_nat i + 1) s w))
                 <= S (requests w)).
  { unfold generate_chapter. destruct (Py.truthy s); cbn [negb]; cbn; [|lia].
    unfold generate_response, bind, requests_post.
    destruct (backend w (requests w)) as [|body]; cbn; [lia|].
    destruct (response_text body); cbn; lia. }
  destruct (generate_chapter (Z.of_nat i + 1) s w) as [[c'|e] w1];
    cbn in Hc; [|discriminate].
  exists c', w1. auto.
Qed.

(** The loop over the positions [a, a + n). *)
Lemma loop_completes plot entries :
  Py.getitem_str plot "chapters" = Ok (PList entries) ->
  forall (n a : nat) (book : Book.t) (w : world),
    a + n <= length entries ->
    (forall i entry, i < a + n -> entries !! i = Some entry ->
                     is_ok (Py.getitem_str entry "summary") = true) ->
    (forall k, requests w <= k -> backend w k <> Unreachable) ->
    exists book' w',
      for_each (chapter_step plot) (map Z.of_nat (seq a n)) book w
      = (Ok book', w')
      /\ same_storage w w'
      /\ Book.title book' = Book.title book
      /\ length (Book.chapters book') = length (Book.chapters book) + n.
Proof.
  intros Hp. induction n as [|n IH]; intros a book w Hlen Hsum Hback.
  - exists book, w. split; [reflexivity|].
    split; [apply same_storage_refl|]. split; [reflexivity|]. lia.
  - destruct (lookup_lt_is_Some_2 entries a) as [entry Hentry]; [lia|].
    destruct (chapter_step_completes plot entries a entry book w Hp Hentry)
      as (c & w1 & Hstep & Hst & Hreq).
    { eapply Hsum; [|exact Hentry]. lia. }
    { apply Hback. lia. }
    destruct (IH (S a) (Book.append_chapter c book) w1)
      as (book' & w' & Hloop & Hst' & Htitle & Hlen').
    { lia. }
    { intros i e Hi. apply Hsum. lia. }
    { intros k Hk. destruct Hst as (Hb & _ & _ & Hr). rewrite Hb.
      apply Hback. lia. }
    exists book', w'. split; [|split; [|split]].
    + cbn [seq map for_each]. now rewrite (bind_ok _ _ _ _ _ Hstep).
    + eapply same_storage_trans; eassumption.
    + exact Htitle.
    + rewrite Hlen'. cbn. rewrite length_app. cbn. lia.
Qed.

Lemma loop_ok_inv plot :
  forall (n a : nat) (book book' : Book.t) (w w' : world),
    for_each (chapter_step plot) (map Z.of_nat (seq a n)) book w
    = (Ok book', w') ->
    exists cs,
      Book.chapters book' = Book.chapters book ++ cs
      /\ length cs = n
      /\ forall k c, cs !! k = Some c ->
                     generated_for (Z.of_nat (a + k) + 1) c.
Proof.
  induction n as [|n IH]; intros a book book' w w' H.
  - injection H as <- _. exists []. rewrite app_nil_r.
    repeat split. intros k c Hk. discriminate.
  - cbn [seq map for_each] in H.
    apply bind_ok_inv in H as (book1 & w1 & Hstep & Hloop).
    apply chapter_step_ok_inv in Hstep as (c & -> & Hc).
    apply IH in Hloop as (cs & Hcs & Hlen & Hall).
    exists (c :: cs). split; [|split].
    + rewrite Hcs. cbn. now rewrite <- app_assoc.
    + cbn. now rewrite Hlen.
    + intros [|k] c' Hk.
      * injection Hk as <-. now rewrite Nat.add_0_r.
      * replace (a + S k) with (S a + k) by lia. now apply Hall.
Qed.

(** *** [export_book] *)

Lemma export_book_writes py_repr book output_dir w :
  exists w',
    export_book py_repr book output_dir w
    = (Ok (Py.path_join output_dir "generated_novel.txt"), w')
    /\ files w'
       = <[Py.path_join output_dir "generated_novel.txt"
           := book_text py_repr book]> (files w)
    /\ backend w' = backend w /\ requests w' = requests w
    /\ console w' = console w.
Proof.
  unfold export_book, bind, path_exists.
  destruct (bool_decide (output_dir ∈ dirs w)
            || bool_decide (is_Some (files w !! output_dir)));
    eexists; (split; [reflexivity|]); cbn; auto.
Qed.

(** *** [main] *)

Section Orchestrator.

Variable json_loads : string -> option pyval.
Variable py_repr : pyval -> string.

(** C4. When the outline stage yields an empty chapters list, [main] ends
    at its first [return] ([Aborted]): the last line on the console is the
    message that no chapters were generated, no request is sent after the
    outline request (no chapter is generated), and the directories and
    files are those the run started with (nothing is exported). *)
Theorem empty_outline_aborts
    (user_input : UserInput.t) (w w1 w2 : world)
    (characters : list Character.t) (plot : pyval) :
  create_characters json_loads w = (Ok characters, w1) ->
  create_plot_outline json_loads w1 = (Ok plot, w2) ->
  Py.getitem_str plot "chapters" = Ok (PList []) ->
  exists w',
    main json_loads py_repr user_input w = (Ok Aborted, w')
    /\ console w' = console w2 ++ [EvNoChaptersExiting]
    /\ requests w' = requests w2
    /\ files w' = files w
    /\ dirs w' = dirs w.
Proof.
  intros Hc Hp Hch. exists (printed EvNoChaptersExiting w2).
  split; [|split; [reflexivity|split; [reflexivity|]]].
  - unfold main. rewrite (bind_ok _ _ _ _ _ Hc), (bind_ok _ _ _ _ _ Hp).
    unfold bind at 1. unfold lift. rewrite Hch. reflexivity.
  - pose proof (create_characters_storage json_loads w) as H1.
    pose proof (create_plot_outline_storage json_loads w1) as H2.
    rewrite Hc in H1. rewrite Hp in H2. cbn [snd] in H1, H2.
    destruct H1 as (_ & Hd1 & Hf1 & _), H2 as (_ & Hd2 & Hf2 & _).
    cbn [files dirs printed]. split; congruence.
Qed.

(** The runs of C2 that the code completes.  When the outline stage yields
    a chapter list that is not empty and has an entry with a [summary] key
    for each of the N requested positions, and the backend answers every
    request of the chapter stage, the loop completes for all N positions:
    the book has N chapters and its text is what [export_book] writes to
    [output/generated_novel.txt].  Replies of the backend that cannot be
    read and summaries that count as false are absorbed on the way (empty
    prose, placeholder chapter). *)
Theorem chapter_loop_completes
    (user_input : UserInput.t) (w w1 w2 : world)
    (characters : list Character.t) (plot : pyval) (entries : list pyval) :
  create_characters json_loads w = (Ok characters, w1) ->
  create_plot_outline json_loads w1 = (Ok plot, w2) ->
  Py.getitem_str plot "chapters" = Ok (PList entries) ->
  entries <> [] ->
  Z.to_nat (UserInput.num_chapters user_input) <= length entries ->
  (forall (i : nat) (entry : pyval),
     i < Z.to_nat (UserInput.num_chapters user_input) ->
     entries !! i = Some entry ->
     is_ok (Py.getitem_str entry "summary") = true) ->
  (forall k, requests w2 <= k -> backend w2 k <> Unreachable) ->
  exists book w',
    main json_loads py_repr user_input w
    = (Ok (Exported book "output/generated_novel.txt"), w')
    /\ length (Book.chapters book)
       = Z.to_nat (UserInput.num_chapters user_input)
    /\ files w' !! "output/generated_novel.txt"
       = Some (book_text py_repr book).
Proof.
  intros Hc Hp Hch Hne Hlen Hsum Hback.
  set (book0 := Book.set_characters characters (initialize_book user_input)).
  destruct (loop_completes plot entries Hch
              (Z.to_nat (UserInput.num_chapters user_input)) 0 book0 w2)
    as (book & w3 & Hloop & Hst & _ & Hn); [lia|exact Hsum|exact Hback|].
  destruct (export_book_writes py_repr book "output" w3)
    as (w4 & Hexp & Hfiles & _).
  exists book, (printed (EvBookSaved "output/generated_novel.txt") w4).
  split; [|split].
  - unfold main. rewrite (bind_ok _ _ _ _ _ Hc), (bind_ok _ _ _ _ _ Hp).
    unfold bind at 1. unfold lift. rewrite Hch.
    destruct entries as [|e entries]; [congruence|]. cbn [Py.truthy negb].
    fold book0. unfold Py.range.
    rewrite (bind_ok _ _ _ _ _ Hloop), (bind_ok _ _ _ _ _ Hexp).
    reflexivity.
  - rewrite Hn. reflexivity.
  - cbn [files printed]. rewrite Hfiles. apply lookup_insert_eq.
Qed.

(** C8 (as amended). In the book of a run that reaches the export there is
    one chapter per requested position, in generation order, and the
    chapter at position i (counted from 1) either has number i and a
    summary that counts as true, or is the placeholder, whose number
    is 0. *)
Theorem exported_chapter_numbers
    (user_input : UserInput.t) (w w' : world) (book : Book.t)
    (output_path : string) :
  main json_loads py_repr user_input w
  = (Ok (Exported book output_path), w') ->
  length (Book.chapters book) = Z.to_nat (UserInput.num_chapters user_input)
  /\ forall (i : nat) (chapter : Chapter.t),
       Book.chapters book !! i = Some chapter ->
       (Chapter.number chapter = Z.of_nat i + 1
        /\ Py.truthy (Chapter.summary chapter) = true)%Z
       \/ (chapter = placeholder_chapter /\ Chapter.number chapter = 0%Z).
Proof.
  unfold main. intros H.
  apply bind_ok_inv in H as (characters & w1 & _ & H).
  apply bind_ok_inv in H as (plot & w2 & _ & H).
  apply bind_ok_inv in H as (chapters & w3 & _ & H).
  destruct (negb (Py.truthy chapters)).
  { apply bind_ok_inv in H as (? & ? & _ & H). discriminate. }
  apply bind_ok_inv in H as (book' & w4 & Hloop & H).
  apply bind_ok_inv in H as (path & w5 & _ & H).
  apply bind_ok_inv in H as (? & w6 & _ & H).
  injection H as <- _ _.
  apply loop_ok_inv in Hloop as (cs & Hcs & Hlen & Hall).
  cbn in Hcs. subst cs. split; [exact Hlen|].
  intros i chapter Hi. destruct (Hall i chapter Hi) as [->|(Hn & Ht & _)].
  - right. split; reflexivity.
  - left. now split.
Qed.

End Orchestrator.

(** *** The exported document *)

Lemma concat_empty_cons (x : string) (l : list string) :
  String.concat "" (x :: l) = x +:+ String.concat "" l.
Proof.
  destruct l as [|y l]; [|reflexivity].
  cbn. now rewrite string_app_nil_r.
Qed.

Lemma concat_empty_app (a b : list string) :
  String.concat "" (a ++ b) = String.concat "" a +:+ String.concat "" b.
Proof.
  induction a as [|x a IH]; [reflexivity|].
  change ((x :: a) ++ b) with (x :: (a ++ b)).
  now rewrite !concat_empty_cons, IH, string_app_assoc.
Qed.




Section Exporter.

Variable py_repr : pyval -> string.





End Exporter.

(** ** Sample runs: the statements at concrete inputs *)

(** C1. The response [[{"name": "A"}]] is a JSON array whose element omits
    four of the required fields.  The claim asks for the empty sequence, as
    on the two sibling paths (not JSON, not a list); [create_characters]
    raises [TypeError] instead, which its handler for
    [json.JSONDecodeError] does not catch. *)
Lemma missing_field_raises :
  Sample.json_loads Sample.name_only
  = Some (PList [PDict {[ "name" := PStr "A" ]}])
  /\ omits_a_field (PDict {[ "name" := PStr "A" ]})
  /\ fst (create_characters Sample.json_loads
            (Sample.served [Sample.name_only]))
     = Raise TypeError.
Proof.
  split; [reflexivity|]. split; [|vm_compute; reflexivity].
  exists {[ "name" := PStr "A" ]}, "goals". split; [reflexivity|].
  split; [|reflexivity]. unfold character_fields. set_solver.
Qed.

Lemma non_array_gives_no_characters_witness :
  create_characters Sample.json_loads (Sample.served [Sample.five])
  = (Ok [],
     printed EvNotAList
       (answered (EvAIResponse "5") (Sample.served [Sample.five]))).
Proof.
  apply (non_array_gives_no_characters Sample.json_loads
           (Sample.served [Sample.five]) _ "5" (PInt 5));
    reflexivity.
Defined.

(** C2. The outline has one entry and two chapters are requested.  The
    claim asks that the loop completes for both positions; after the first
    chapter the lookup of the second entry raises [IndexError], before
    [generate_chapter] and its skip path are reached, although the backend
    would have answered. *)
Lemma short_outline_raises :
  Sample.json_loads Sample.outline_one
  = Some (Sample.outline_of [PDict {[ "summary" := PStr "S1" ]}])
  /\ fst (main Sample.json_loads Sample.py_repr (Sample.user 2)
            (Sample.always_served
               [Sample.no_characters; Sample.outline_one;
                "Once upon a time"]))
     = Raise IndexError.
Proof. split; [reflexivity|vm_compute; reflexivity]. Qed.

Lemma chapter_loop_completes_witness :
  exists book w',
    main Sample.json_loads Sample.py_repr (Sample.user 1)
      (Sample.always_served
         [Sample.no_characters; Sample.outline_one; "Once upon a time"])
    = (Ok (Exported book "output/generated_novel.txt"), w')
    /\ length (Book.chapters book) = 1
    /\ files w' !! "output/generated_novel.txt"
       = Some (book_text Sample.py_repr book).
Proof.
  set (w := Sample.always_served
              [Sample.no_characters; Sample.outline_one; "Once upon a time"]).
  apply (chapter_loop_completes Sample.json_loads Sample.py_repr
           (Sample.user 1) w
           (snd (create_characters Sample.json_loads w))
           (snd (create_plot_outline Sample.json_loads
                   (snd (create_characters Sample.json_loads w))))
           []
           (Sample.outline_of [PDict {[ "summary" := PStr "S1" ]}])
           [PDict {[ "summary" := PStr "S1" ]}]).
  - vm_compute. reflexivity.
  - vm_compute. reflexivity.
  - reflexivity.
  - discriminate.
  - cbn. lia.
  - intros [|i] entry Hi Hentry; [|cbn in Hi; lia].
    injection Hentry as <-. reflexivity.
  - intros k _. discriminate.
Defined.

(** C3. The only outline entry has no [summary] key.  The claim asks for
    the placeholder chapter; the lookup of [summary] raises [KeyError]
    before [generate_chapter] and its skip path are reached, and the run
    ends there. *)
Lemma missing_summary_raises :
  Sample.json_loads Sample.outline_no_summary
  = Some (Sample.outline_of [PDict {[ "title" := PStr "A" ]}])
  /\ fst (main Sample.json_loads Sample.py_repr (Sample.user 1)
            (Sample.always_served
               [Sample.no_characters; Sample.outline_no_summary]))
     = Raise KeyError.
Proof. split; [reflexivity|vm_compute; reflexivity]. Qed.

Lemma falsy_summary_gives_placeholder_witness :
  exists w',
    generate_chapter 1 (PStr "") (Sample.served [])
    = (Ok placeholder_chapter, w')
    /\ chapter_step
         (Sample.outline_of [PDict {[ "summary" := PStr "" ]}]) 0
         (initialize_book (Sample.user 1)) (Sample.served [])
       = (Ok Sample.skipped_book, w')
    /\ requests w' = 0.
Proof.
  destruct (falsy_summary_gives_placeholder
              (Sample.outline_of [PDict {[ "summary" := PStr "" ]}])
              (PList [PDict {[ "summary" := PStr "" ]}])
              (PDict {[ "summary" := PStr "" ]})
              (PStr "") 0 (initialize_book (Sample.user 1))
              (Sample.served []))
    as (w' & Hg & Hs & Hr & _); try reflexivity.
  exists w'. auto.
Defined.

Lemma empty_outline_aborts_witness :
  exists w',
    main Sample.json_loads Sample.py_repr (Sample.user 3)
      (Sample.always_served [Sample.no_characters; Sample.outline_empty])
    = (Ok Aborted, w')
    /\ requests w' = 2
    /\ files w' = ∅
    /\ dirs w' = ∅.
Proof.
  set (w := Sample.always_served [Sample.no_characters; Sample.outline_empty]).
  destruct (empty_outline_aborts Sample.json_loads Sample.py_repr
              (Sample.user 3) w
              (snd (create_characters Sample.json_loads w))
              (snd (create_plot_outline Sample.json_loads
                      (snd (create_characters Sample.json_loads w))))
              [] (Sample.outline_of []))
    as (w' & Hm & _ & Hr & Hf & Hd);
    [vm_compute; reflexivity|vm_compute; reflexivity|reflexivity|].
  exists w'. auto.
Defined.

(** C5. The response [5] is valid JSON and its value has no [chapters]
    key.  The claim asks for the empty outline, as on the sibling paths;
    the membership test on an integer raises [TypeError], which the handler
    for [json.JSONDecodeError] does not catch. *)
Lemma scalar_outline_raises :
  Sample.json_loads Sample.five = Some (PInt 5)
  /\ fst (create_plot_outline Sample.json_loads (Sample.served [Sample.five]))
     = Raise TypeError.
Proof. split; [reflexivity|vm_compute; reflexivity]. Qed.

Lemma bad_outline_gives_empty_outline_witness :
  exists w'',
    create_plot_outline Sample.json_loads (Sample.served [Sample.empty_object])
    = (Ok empty_outline, w'')
    /\ Py.getitem_str empty_outline "chapters" = Ok (PList [])
    /\ requests w'' = 1.
Proof.
  destruct (bad_outline_gives_empty_outline Sample.json_loads
              (Sample.served [Sample.empty_object])
              (answered (EvAIResponse "{}")
                 (Sample.served [Sample.empty_object]))
              "{}")
    as (w'' & Hp & Hc & Hr & _).
  - reflexivity.
  - right. exists ∅. split; [reflexivity|]. left. reflexivity.
  - exists w''. auto.
Defined.

Lemma well_formed_array_gives_characters_witness :
  exists cs,
    create_characters Sample.json_loads (Sample.served [Sample.one_character])
    = (Ok cs,
       answered (EvAIResponse Sample.one_character)
         (Sample.served [Sample.one_character]))
    /\ length cs = 1.
Proof.
  destruct (well_formed_array_gives_characters Sample.json_loads
              (Sample.served [Sample.one_character])
              (answered (EvAIResponse Sample.one_character)
                 (Sample.served [Sample.one_character]))
              Sample.one_character
              [PDict {[ "name" := PStr "A"; "background" := PStr "B";
                        "personality" := PStr "P"; "goals" := PStr "G";
                        "relationships" := PDict ∅ ]}])
    as (cs & Hc & Hl & _).
  - vm_compute. reflexivity.
  - reflexivity.
  - constructor; [|constructor]. eexists. split; [reflexivity|].
    vm_compute. reflexivity.
  - exists cs. auto.
Defined.

(** C8, counterexample. The only outline entry has an empty summary: the run
    reaches the export with a book whose first chapter has number 0. *)
Lemma placeholder_breaks_numbering :
  fst (main Sample.json_loads Sample.py_repr (Sample.user 1)
         (Sample.always_served
            [Sample.no_characters; Sample.outline_blank_summary]))
  = Ok (Exported Sample.skipped_book "output/generated_novel.txt")
  /\ ~ (forall (i : nat) (chapter : Chapter.t),
          Book.chapters Sample.skipped_book !! i = Some chapter ->
          Chapter.number chapter = (Z.of_nat i + 1)%Z).
Proof.
  split; [vm_compute; reflexivity|].
  intros H. specialize (H 0 placeholder_chapter eq_refl). discriminate.
Qed.

Lemma exported_chapter_numbers_witness :
  length (Book.chapters Sample.told_book) = 1
  /\ forall (i : nat) (chapter : Chapter.t),
       Book.chapters Sample.told_book !! i = Some chapter ->
       (Chapter.number chapter = Z.of_nat i + 1
        /\ Py.truthy (Chapter.summary chapter) = true)%Z
       \/ (chapter = placeholder_chapter /\ Chapter.number chapter = 0%Z).
Proof.
  set (w := Sample.always_served
              [Sample.no_characters; Sample.outline_one; "Once upon a time"]).
  apply (exported_chapter_numbers Sample.json_loads Sample.py_repr
           (Sample.user 1) w
           (snd (main Sample.json_loads Sample.py_repr (Sample.user 1) w))
           Sample.told_book "output/generated_novel.txt").
  vm_compute. reflexivity.
Defined.



(** The document of the sample run that tells one chapter. *)
Example told_book_text :
  book_text Sample.py_repr Sample.told_book
  = unlines [ "Title: T"; "Genre: fantasy"; "Themes: hope, betrayal"; "";
              "Chapter 1: Chapter 1"; "S1"; ""; "Once upon a time"; "" ].
Proof. reflexivity. Qed.

(** ** Further properties of the pipeline *)

(** *** [strip] and [split] *)

Lemma lstrip_chars_head (l : list ascii) :
  match Py.lstrip_chars l with
  | [] => True
  | c :: _ => Py.isspace c = false
  end.
Proof.
  induction l as [|c l IH]; cbn; [exact I|].
  destruct (Py.isspace c) eqn:Hc; [exact IH|exact Hc].
Qed.

Lemma lstrip_chars_fixed (l : list ascii) :
  match l with [] => True | c :: _ => Py.isspace c = false end ->
  Py.lstrip_chars l = l.
Proof. destruct l as [|c l]; cbn; [reflexivity|]. now intros ->. Qed.

Lemma lstrip_chars_idem (l : list ascii) :
  Py.lstrip_chars (Py.lstrip_chars l) = Py.lstrip_chars l.
Proof. apply lstrip_chars_fixed, lstrip_chars_head. Qed.

Lemma lstrip_chars_suffix (l : list ascii) :
  exists sp, l = sp ++ Py.lstrip_chars l.
Proof.
  induction l as [|c l [sp IH]]; [now exists []|]. cbn.
  destruct (Py.isspace c).
  - exists (c :: sp). cbn. now rewrite <- IH.
  - now exists [].
Qed.

(** [strip] on lists of characters. *)
Lemma strip_chars_fixed (l : list ascii) :
  let b := rev (Py.lstrip_chars (rev (Py.lstrip_chars l))) in
  Py.lstrip_chars b = b /\ Py.lstrip_chars (rev b) = rev b.
Proof.
  cbv zeta. set (a := Py.lstrip_chars l).
  set (c := Py.lstrip_chars (rev a)). split.
  - apply lstrip_chars_fixed.
    destruct (lstrip_chars_suffix (rev a)) as [sp Hsp]. fold c in Hsp.
    assert (Ha : a = rev c ++ rev sp).
    { rewrite <- (rev_involutive a), Hsp, rev_app_distr. reflexivity. }
    pose proof (lstrip_chars_head l) as Hhead. fold a in Hhead.
    destruct (rev c) as [|x b'] eqn:Hb; [exact I|].
    rewrite Ha in Hhead. exact Hhead.
  - rewrite rev_involutive. apply lstrip_chars_idem.
Qed.

Lemma strip_idem (s : string) : Py.strip (Py.strip s) = Py.strip s.
Proof.
  unfold Py.strip. rewrite list_ascii_of_string_of_list_ascii.
  destruct (strip_chars_fixed (list_ascii_of_string s)) as [H1 H2].
  cbv zeta in H1, H2. now rewrite H1, H2, rev_involutive.
Qed.

Lemma strip_empty : Py.strip "" = "".
Proof. reflexivity. Qed.

Lemma readable_text_stripped (body : option pyval) :
  Py.strip (readable_text body) = readable_text body.
Proof.
  unfold readable_text.
  destruct body as [[]|]; try reflexivity.
  destruct (d !! "response") as [[]|]; try reflexivity.
  apply strip_idem.
Qed.

Lemma completion_readable (body : option pyval) :
  fst (completion body) = readable_text body.
Proof.
  unfold completion, response_text, readable_text.
  destruct body as [[]|]; try reflexivity.
  destruct (d !! "response") as [[]|]; reflexivity.
Qed.

(** *** [generate_response] *)

Lemma generate_response_effect (w : world) :
  requests (snd (generate_response w)) = S (requests w)
  /\ storage (snd (generate_response w)) = storage w.
Proof.
  unfold generate_response, bind, requests_post.
  destruct (backend w (requests w)) as [|body]; [now split|].
  destruct (response_text body); now split.
Qed.

Lemma generate_response_stripped (w w' : world) (text : string) :
  generate_response w = (Ok text, w') -> Py.strip text = text.
Proof.
  destruct (backend w (requests w)) as [|body] eqn:Hb.
  - unfold generate_response, bind, requests_post. rewrite Hb. discriminate.
  - rewrite (generate_response_replied w body Hb), completion_readable.
    intros [= <- _]. apply readable_text_stripped.
Qed.


(** *** [create_characters] *)

Lemma Character_init_ok_inv (v : pyval) (c : Character.t) :
  Character_init v = Ok c -> well_formed_character v.
Proof.
  unfold Character_init, well_formed_character.
  destruct v as [| | | | |l|kw]; try discriminate.
  destruct (kw !! "name") as [n|] eqn:Hn; [|discriminate].
  destruct (kw !! "background") as [b|] eqn:Hb; [|discriminate].
  destruct (kw !! "personality") as [p|] eqn:Hp; [|discriminate].
  destruct (kw !! "goals") as [g|] eqn:Hg; [|discriminate].
  destruct (kw !! "relationships") as [r|] eqn:Hr; [|discriminate].
  destruct (bool_decide (dom kw ⊆ character_fields)) eqn:Hsub;
    [|discriminate].
  intros _. exists kw. split; [reflexivity|].
  apply bool_decide_eq_true_1 in Hsub.
  apply set_eq. intros k. split; [apply Hsub|].
  intros Hk. apply elem_of_dom.
  assert (Hcases : k = "name" \/ k = "background" \/ k = "personality"
                   \/ k = "goals" \/ k = "relationships").
  { unfold character_fields in Hk. set_unfold in Hk. tauto. }
  destruct Hcases as [->|[->|[->|[->| ->]]]]; eauto.
Qed.

Lemma Character_init_raises (v : pyval) (e : exn) :
  Character_init v = Raise e -> e = TypeError.
Proof.
  unfold Character_init.
  repeat (match goal with
          | |- context [match ?x with _ => _ end] => destruct x
          end); congruence.
Qed.

Lemma comprehension_ok_inv {A B} (f : A -> result B) (xs : list A) ys :
  comprehension f xs = Ok ys -> Forall (fun x => is_ok (f x) = true) xs.
Proof.
  revert ys. induction xs as [|x xs IH]; intros ys H; [constructor|].
  cbn in H. destruct (f x) as [y|] eqn:Hx; [|discriminate].
  destruct (comprehension f xs) as [ys'|]; [|discriminate].
  constructor; [now rewrite Hx|eauto].
Qed.

Lemma comprehension_raises {A B} (f : A -> result B) (xs : list A) e :
  comprehension f xs = Raise e -> exists x, x ∈ xs /\ f x = Raise e.
Proof.
  induction xs as [|x xs IH]; [discriminate|]. cbn.
  destruct (f x) as [y|e'] eqn:Hx.
  - destruct (comprehension f xs) as [ys|e'']; [discriminate|].
    intros [= <-]. destruct IH as (x' & Hin & Hx'); [reflexivity|].
    exists x'. split; [now right|exact Hx'].
  - intros [= <-]. exists x. split; [now left|exact Hx].
Qed.

Lemma comprehension_Character_init (elems : list pyval) :
  (Forall well_formed_character elems
   /\ is_ok (comprehension Character_init elems) = true)
  \/ (~ Forall well_formed_character elems
      /\ comprehension Character_init elems = Raise TypeError).
Proof.
  destruct (comprehension Character_init elems) as [cs|e] eqn:Hc.
  - left. split; [|reflexivity].
    apply comprehension_ok_inv in Hc.
    eapply Forall_impl; [exact Hc|]. intros v Hv. cbn beta in Hv.
    destruct (Character_init v) as [c|] eqn:Hi; [|discriminate Hv].
    eapply Character_init_ok_inv, Hi.
  - right. apply comprehension_raises in Hc as (v & Hin & Hv).
    rewrite (Character_init_raises v e Hv) in *. split; [|reflexivity].
    intros Hall. rewrite Forall_forall in Hall.
    destruct (Character_init_well_formed v (Hall v Hin)) as (c & Hok & _).
    congruence.
Qed.

Section ParserOutcomes.

Variable json_loads : string -> option pyval.

(** X2. The outcome of [create_characters] in every case.  A request the
    backend does not answer ends it with that exception.  A response that
    is not valid JSON gives the empty sequence and the parse-failure line,
    one that decodes to something that is not an array gives the empty
    sequence and the not-a-list line.  An array gives one character per
    element when every element is an object with exactly the five keys, and
    [TypeError] otherwise (a missing key, an extra key, an element that is
    no object), with no line on the console. *)
Theorem create_characters_outcome (w : world) :
  match generate_response w with
  | (Raise e, w') => create_characters json_loads w = (Raise e, w')
  | (Ok response, w') =>
      match json_loads response with
      | None =>
          create_characters json_loads w
          = (Ok [], printed EvCharacterParseFailed w')
      | Some (PList elems) =>
          snd (create_characters json_loads w) = w'
          /\ ((Forall well_formed_character elems
               /\ exists cs,
                    fst (create_characters json_loads w) = Ok cs
                    /\ length cs = length elems)
              \/ (~ Forall well_formed_character elems
                  /\ fst (create_characters json_loads w) = Raise TypeError))
      | Some _ =>
          create_characters json_loads w = (Ok [], printed EvNotAList w')
      end
  end.
Proof.
  unfold create_characters.
  destruct (generate_response w) as [[response|e] w'] eqn:Hg.
  - rewrite (bind_ok _ _ _ _ _ Hg).
    destruct (json_loads response) as [[| | | | |elems|]|]; try reflexivity.
    unfold lift. split; [reflexivity|]. cbn [fst].
    destruct (comprehension_Character_init elems) as [[Hall Hok]|[Hno Hr]].
    + left. split; [exact Hall|].
      destruct (comprehension_well_formed elems Hall) as (cs & Hcs & Hcopy).
      exists cs. split; [exact Hcs|]. symmetry. eapply Forall2_length, Hcopy.
    + right. now split.
  - now rewrite (bind_raise _ _ _ _ _ Hg).
Qed.

(** *** [create_plot_outline] *)

(** X3. What [create_plot_outline] returns is always an object whose
    [chapters] is a list, so the lookup of [chapters] in [main] cannot
    fail; and it is either the empty outline or the decoded response
    itself, with its entries and other keys as they came. *)
Theorem create_plot_outline_result (w : world) :
  match create_plot_outline json_loads w with
  | (Ok plot, _) =>
      (exists entries, Py.getitem_str plot "chapters" = Ok (PList entries))
      /\ (plot = empty_outline
          \/ exists response w1,
               generate_response w = (Ok response, w1)
               /\ json_loads response = Some plot)
  | (Raise _, _) => True
  end.
Proof.
  destruct (create_plot_outline json_loads w) as [[plot|e] w'] eqn:H;
    [|exact I].
  split; [eapply create_plot_outline_returns_outline, H|].
  unfold create_plot_outline in H.
  apply bind_ok_inv in H as (response & w1 & Hg & H).
  apply bind_ok_inv in H as (? & w2 & _ & H).
  destruct (json_loads response) as [plot0|] eqn:Hl.
  - apply bind_ok_inv in H as (has_key & w3 & _ & H).
    apply bind_ok_inv in H as ([|] & w4 & _ & H).
    + injection H as <- _. right. eauto.
    + apply bind_ok_inv in H as (? & w5 & _ & H). injection H as <- _.
      now left.
  - apply bind_ok_inv in H as (? & w3 & _ & H). injection H as <- _.
    now left.
Qed.

(** X4. A response that decodes to something that is no object.  For an
    array, [create_plot_outline] raises [TypeError] when the string
    [chapters] is one of its elements and returns the empty outline when it
    is not; for a string, the same with [chapters] as a substring; for a
    number, a boolean or [null] it raises [TypeError]. *)
Theorem non_object_outline
    (w w1 : world) (response : string) (v : pyval) :
  generate_response w = (Ok response, w1) ->
  json_loads response = Some v ->
  (forall d, v <> PDict d) ->
  let w' := printed (EvOutlineEcho response) w1 in
  let raises := create_plot_outline json_loads w = (Raise TypeError, w') in
  let empty :=
    create_plot_outline json_loads w
    = (Ok empty_outline, printed EvNoValidChapters w') in
  match v with
  | PList l => (In (PStr "chapters") l /\ raises)
               \/ (~ In (PStr "chapters") l /\ empty)
  | PStr s => if Py.is_substring "chapters" s then raises else empty
  | _ => raises
  end.
Proof.
  intros Hg Hl Hd. cbv zeta. unfold create_plot_outline.
  rewrite (bind_ok _ _ _ _ _ Hg). unfold bind at 1. cbn [print]. rewrite Hl.
  destruct v as [| | | |s|l|d]; try reflexivity.
  - unfold bind, lift. cbn [Py.contains].
    destruct (Py.is_substring "chapters" s); reflexivity.
  - unfold bind, lift. cbn [Py.contains].
    destruct (existsb _ l) eqn:Hex.
    + left. split; [|reflexivity].
      apply existsb_exists in Hex as (x & Hin & Hx).
      destruct x; try discriminate. apply String.eqb_eq in Hx. now subst.
    + right. split; [|reflexivity]. intros Hin.
      assert (existsb (fun v => match v with
                                | PStr s => String.eqb s "chapters"
                                | _ => false end) l = true) as Hex'.
      { apply existsb_exists. exists (PStr "chapters"). split; [exact Hin|].
        apply String.eqb_refl. }
      congruence.
  - now destruct (Hd d).
Qed.

End ParserOutcomes.

(** *** [generate_chapter] *)

Lemma app_char_not_empty (tok : string) (c : ascii) :
  tok +:+ String c EmptyString <> EmptyString.
Proof. destruct tok; discriminate. Qed.

Lemma split_from_tok (tok s : string) :
  tok <> "" -> Py.split_from tok s <> [].
Proof.
  revert tok. induction s as [|c s IH]; intros tok Htok; cbn.
  - destruct tok; [congruence|discriminate].
  - destruct (Py.isspace c).
    + destruct tok; [congruence|discriminate].
    + apply IH, app_char_not_empty.
Qed.

(** A text without words is empty or starts with whitespace. *)
Lemma split_nil_head (s : string) :
  Py.split s = [] ->
  match s with "" => True | String c _ => Py.isspace c = true end.
Proof.
  destruct s as [|c s]; [auto|]. unfold Py.split. cbn.
  destruct (Py.isspace c); [auto|].
  intros H. now apply split_from_tok in H.
Qed.

Lemma stripped_head (s : string) :
  Py.strip s = s ->
  match s with "" => True | String c _ => Py.isspace c = false end.
Proof.
  intros H. rewrite <- H. unfold Py.strip.
  destruct (strip_chars_fixed (list_ascii_of_string s)) as [H1 _].
  cbv zeta in H1.
  pose proof (lstrip_chars_head
                (rev (Py.lstrip_chars
                        (rev (Py.lstrip_chars (list_ascii_of_string s))))))
    as Hhead.
  rewrite H1 in Hhead.
  destruct (rev (Py.lstrip_chars
                   (rev (Py.lstrip_chars (list_ascii_of_string s)))));
    [exact I|exact Hhead].
Qed.

Lemma stripped_no_words (s : string) :
  Py.strip s = s -> (Py.split s = [] <-> s = "").
Proof.
  intros Hs. split; [|now intros ->].
  intros Hsplit. apply split_nil_head in Hsplit. apply stripped_head in Hs.
  destruct s as [|c s]; [reflexivity|congruence].
Qed.

(** X5. Every chapter [generate_chapter] returns has exactly one scene,
    without point of view or location, whose content neither starts nor
    ends with whitespace; its word count is 0 exactly when that content is
    empty.  A placeholder costs no request and an expansion one, and the
    file system is untouched. *)
Theorem generated_chapter_shape
    (chapter_number : Z) (chapter_summary : pyval) (w : world) :
  match generate_chapter chapter_number chapter_summary w with
  | (Ok chapter, w') =>
      (exists content,
         Chapter.scenes chapter = [Scene.mk content None None]
         /\ Py.strip content = content
         /\ (Chapter.word_count chapter = 0%Z <-> content = ""))
      /\ requests w'
         = requests w + (if Py.truthy chapter_summary then 1 else 0)
      /\ storage w' = storage w
  | (Raise _, w') =>
      Py.truthy chapter_summary = true
      /\ requests w' = S (requests w)
      /\ storage w' = storage w
  end.
Proof.
  unfold generate_chapter.
  destruct (Py.truthy chapter_summary); cbn [negb].
  - unfold bind. destruct (generate_response_effect w) as [Hreq Hst].
    destruct (generate_response w) as [[content|e] w1] eqn:Hg;
      cbn [snd] in Hreq, Hst.
    + pose proof (generate_response_stripped w w1 content Hg) as Hstrip.
      cbn [ret]. split; [|split; [lia|exact Hst]].
      exists content. split; [reflexivity|]. split; [exact Hstrip|].
      cbn [Chapter.word_count]. rewrite <- (stripped_no_words content Hstrip).
      split; [|now intros ->].
      intros H0. destruct (Py.split content); [reflexivity|discriminate].
    + auto.
  - cbn. split; [|split; [lia|reflexivity]].
    exists "". split; [reflexivity|]. split; [reflexivity|].
    split; reflexivity.
Qed.

(** X6. When the summary counts as true and the reply of the backend gives
    no text (an unreadable body, or an empty completion), the chapter is
    kept with its number, its title and its summary, one empty scene and
    word count 0; it is not the placeholder. *)
Theorem unreadable_expansion_keeps_chapter
    (n : Z) (chapter_summary : pyval) (body : option pyval) (w : world) :
  Py.truthy chapter_summary = true ->
  backend w (requests w) = Replied body ->
  readable_text body = "" ->
  let chapter :=
    Chapter.mk n ("Chapter " +:+ Py.str_int n) chapter_summary
               [Scene.mk "" None None] 0 in
  fst (generate_chapter n chapter_summary w) = Ok chapter
  /\ chapter <> placeholder_chapter.
Proof.
  intros Ht Hb Htext. cbv zeta. split.
  - unfold generate_chapter. rewrite Ht. cbn [negb].
    rewrite (bind_ok _ _ _ _ _ (generate_response_replied w body Hb)).
    rewrite completion_readable, Htext. reflexivity.
  - intros Heq. apply (f_equal Chapter.summary) in Heq. cbn in Heq.
    rewrite Heq in Ht. discriminate.
Qed.

(** *** [export_book] *)

Section ExporterEffects.

Variable py_repr : pyval -> string.

(** X7. The document grows with the book: appending a chapter to a book
    appends the text of that chapter to the document and leaves everything
    before it as it was. *)
Theorem appended_chapter_appends_text (book : Book.t) (chapter : Chapter.t) :
  book_text py_repr (Book.append_chapter chapter book)
  = book_text py_repr book +:+ chapter_text py_repr chapter.
Proof.
  unfold book_text, Book.append_chapter.
  cbn [Book.title Book.genre Book.themes Book.chapters].
  rewrite map_app, concat_empty_app. cbn [map].
  rewrite concat_empty_cons. change (String.concat "" []) with "".
  rewrite string_app_nil_r, !string_app_assoc. reflexivity.
Qed.

Lemma export_book_world (book : Book.t) (output_dir : string) (w : world) :
  export_book py_repr book output_dir w
  = (Ok (Py.path_join output_dir "generated_novel.txt"),
     mkWorld (backend w) (requests w) (console w)
       (if bool_decide (output_dir ∈ dirs w)
           || bool_decide (is_Some (files w !! output_dir))
        then dirs w else {[output_dir]} ∪ dirs w)
       (<[Py.path_join output_dir "generated_novel.txt"
          := book_text py_repr book]> (files w))).
Proof.
  unfold export_book, bind, path_exists.
  destruct (bool_decide (output_dir ∈ dirs w)
            || bool_decide (is_Some (files w !! output_dir))); reflexivity.
Qed.

(** X8. What [export_book] has done when it returns, for an output path
    that is not a regular file.  It returns the path of
    [generated_novel.txt] in the output directory; that file holds the text
    of the book and every other file is as it was.  The output directory
    exists as a directory; no directory has gone, and when the output
    directory existed before, the directories are unchanged.  No request
    was sent and nothing was printed. *)
Theorem export_book_effects
    (book : Book.t) (output_dir output_path : string) (w w' : world) :
  export_book py_repr book output_dir w = (Ok output_path, w') ->
  files w !! output_dir = None ->
  output_path = Py.path_join output_dir "generated_novel.txt"
  /\ files w' !! output_path = Some (book_text py_repr book)
  /\ (forall path, path <> output_path -> files w' !! path = files w !! path)
  /\ output_dir ∈ dirs w'
  /\ (forall d, d ∈ dirs w -> d ∈ dirs w')
  /\ (output_dir ∈ dirs w -> dirs w' = dirs w)
  /\ requests w' = requests w
  /\ console w' = console w.
Proof.
  rewrite export_book_world. intros [= <- <-] Hfile.
  cbn [files dirs requests console].
  split; [reflexivity|]. split; [apply lookup_insert_eq|].
  split; [intros path Hp; now apply lookup_insert_ne|].
  rewrite Hfile.
  rewrite (bool_decide_eq_false_2 (is_Some None))
    by (intros [? ?]; discriminate).
  rewrite orb_false_r.
  destruct (bool_decide (output_dir ∈ dirs w)) eqn:Hd.
  - apply bool_decide_eq_true_1 in Hd. repeat split; auto.
  - apply bool_decide_eq_false_1 in Hd.
    split; [apply elem_of_union_l, elem_of_singleton; reflexivity|].
    split; [intros d Hin; now apply elem_of_union_r|].
    split; [tauto|]. now split.
Qed.

(** X9. The last export wins: exporting a book and then another one to the
    same directory leaves the world as exporting the second alone does.  In
    particular exporting the same book twice changes nothing the second
    time. *)
Theorem last_export_wins
    (book1 book2 : Book.t) (output_dir : string) (w : world) :
  snd (export_book py_repr book2 output_dir
         (snd (export_book py_repr book1 output_dir w)))
  = snd (export_book py_repr book2 output_dir w).
Proof.
  rewrite !export_book_world. cbn [snd backend requests console dirs files].
  rewrite insert_insert_eq. f_equal.
  destruct (bool_decide (output_dir ∈ dirs w)) eqn:Hd;
    destruct (bool_decide (is_Some (files w !! output_dir))) eqn:Hf;
    cbn [orb].
  - now rewrite Hd.
  - now rewrite Hd.
  - rewrite Hd. cbn [orb].
    rewrite bool_decide_eq_true_2; [reflexivity|].
    apply bool_decide_eq_true_1 in Hf.
    destruct (decide (Py.path_join output_dir "generated_novel.txt"
                      = output_dir)) as [Heq|Hne].
    + rewrite Heq, lookup_insert_eq. eauto.
    + now rewrite lookup_insert_ne.
  - rewrite bool_decide_eq_true_2 by set_solver. reflexivity.
Qed.

End ExporterEffects.

(** *** The stages of [main], one by one *)

Lemma with_chapters_chapters (cs : list Chapter.t) (book : Book.t) :
  Book.chapters (with_chapters cs book) = Book.chapters book ++ cs.
Proof.
  revert book. induction cs as [|c cs IH]; intros book; cbn.
  - now rewrite app_nil_r.
  - unfold with_chapters in IH. rewrite IH. cbn. now rewrite <- app_assoc.
Qed.

Lemma with_chapters_fields (cs : list Chapter.t) (book : Book.t) :
  Book.title (with_chapters cs book) = Book.title book
  /\ Book.genre (with_chapters cs book) = Book.genre book
  /\ Book.target_audience (with_chapters cs book) = Book.target_audience book
  /\ Book.themes (with_chapters cs book) = Book.themes book
  /\ Book.characters (with_chapters cs book) = Book.characters book
  /\ Book.metadata (with_chapters cs book) = Book.metadata book.
Proof.
  revert book. induction cs as [|c cs IH]; intros book; cbn; [tauto|].
  unfold with_chapters in IH.
  destruct (IH (Book.append_chapter c book)) as (H1 & H2 & H3 & H4 & H5 & H6).
  rewrite H1, H2, H3, H4, H5, H6. cbn. tauto.
Qed.

Lemma getitem_str_raises (v : pyval) (key : string) (e : exn) :
  Py.getitem_str v key = Raise e -> e = KeyError \/ e = TypeError.
Proof.
  destruct v; cbn; try (intros [= <-]; now right).
  destruct (d !! key); [discriminate|]. intros [= <-]. now left.
Qed.

Lemma generate_chapter_cases (n : Z) (s : pyval) (w : world) :
  match generate_chapter n s w with
  | (Ok c, w') =>
      chapter_of n s c
      /\ expanded c = Py.truthy s
      /\ requests w' = requests w + (if Py.truthy s then 1 else 0)
      /\ storage w' = storage w
  | (Raise e, w') =>
      e = RequestException
      /\ requests w' = S (requests w)
      /\ storage w' = storage w
  end.
Proof.
  unfold generate_chapter, chapter_of, expanded.
  destruct (Py.truthy s) eqn:Ht; cbn [negb].
  - unfold bind. destruct (generate_response_effect w) as [Hreq Hst].
    destruct (generate_response w) as [[content|e] w1] eqn:Hg;
      cbn [snd] in Hreq, Hst.
    + cbn. rewrite Ht. repeat split; try lia. exact Hst.
    + apply generate_response_raises in Hg as [-> _]. auto.
  - cbn. repeat split. lia.
Qed.

Lemma chapter_step_cases
    (plot : pyval) (entries : list pyval) (i : nat) (book : Book.t)
    (w : world) :
  Py.getitem_str plot "chapters" = Ok (PList entries) ->
  match chapter_step plot (Z.of_nat i) book w with
  | (Ok book', w') =>
      exists entry s c,
        entries !! i = Some entry
        /\ Py.getitem_str entry "summary" = Ok s
        /\ chapter_of (Z.of_nat i + 1) s c
        /\ book' = Book.append_chapter c book
        /\ requests w' = requests w + (if expanded c then 1 else 0)
        /\ storage w' = storage w
  | (Raise e, w') =>
      loop_exception e
      /\ storage w' = storage w
      /\ requests w <= requests w' <= S (requests w)
  end.
Proof.
  intros Hp. unfold chapter_step, bind, lift, loop_exception.
  rewrite Hp, getitem_int_nth.
  destruct (entries !! i) as [entry|]; [|repeat split; auto; lia].
  destruct (Py.getitem_str entry "summary") as [s|e] eqn:Hs.
  - pose proof (generate_chapter_cases (Z.of_nat i + 1) s w) as H.
    destruct (generate_chapter (Z.of_nat i + 1) s w) as [[c|e] w1].
    + destruct H as (Hc & He & Hr & Hst). exists entry, s, c.
      rewrite He. repeat split; try assumption; reflexivity.
    + destruct H as (-> & Hr & Hst). repeat split; auto; lia.
  - apply getitem_str_raises in Hs. repeat split; [tauto|lia|lia].
Qed.

(** The loop over the positions [a, a + n), in every case. *)
Lemma loop_cases (plot : pyval) (entries : list pyval) :
  Py.getitem_str plot "chapters" = Ok (PList entries) ->
  forall (n a : nat) (book : Book.t) (w : world),
    match for_each (chapter_step plot) (map Z.of_nat (seq a n)) book w with
    | (Ok book', w') =>
        exists cs,
          book' = with_chapters cs book
          /\ length cs = n
          /\ requests w' = requests w + length (List.filter expanded cs)
          /\ storage w' = storage w
          /\ forall k c, cs !! k = Some c ->
               exists entry s,
                 entries !! (a + k) = Some entry
                 /\ Py.getitem_str entry "summary" = Ok s
                 /\ chapter_of (Z.of_nat (a + k) + 1) s c
    | (Raise e, w') =>
        loop_exception e
        /\ storage w' = storage w
        /\ requests w <= requests w' <= requests w + n
    end.
Proof.
  intros Hp. induction n as [|n IH]; intros a book w.
  - cbn. exists []. split; [reflexivity|]. split; [reflexivity|].
    split; [cbn; lia|]. split; [reflexivity|]. intros k c Hk. discriminate.
  - cbn [seq map for_each]. unfold bind.
    pose proof (chapter_step_cases plot entries a book w Hp) as Hstep.
    destruct (chapter_step plot (Z.of_nat a) book w) as [[book1|e] w1].
    + destruct Hstep as (entry & s & c & He & Hs & Hc & -> & Hr & Hst).
      specialize (IH (S a) (Book.append_chapter c book) w1).
      destruct (for_each (chapter_step plot) (map Z.of_nat (seq (S a) n))
                  (Book.append_chapter c book) w1) as [[book'|e] w'].
      * destruct IH as (cs & -> & Hlen & Hr' & Hst' & Hall).
        exists (c :: cs). split; [reflexivity|]. split; [cbn; lia|].
        split; [|split; [congruence|]].
        -- cbn [List.filter]. destruct (expanded c); cbn [length]; lia.
        -- intros [|k] c' Hk.
           ++ injection Hk as <-. rewrite Nat.add_0_r. eauto.
           ++ replace (a + S k) with (S a + k) by lia. now apply Hall.
      * destruct IH as (He' & Hst' & Hr'). split; [exact He'|].
        split; [congruence|]. destruct (expanded c); lia.
    + destruct Hstep as (He & Hst & Hr). split; [exact He|].
      split; [exact Hst|]. lia.
Qed.

Lemma generate_chapter_raises (n : Z) (s : pyval) (w w' : world) (e : exn) :
  generate_chapter n s w = (Raise e, w') ->
  e = RequestException /\ Py.truthy s = true /\ storage w' = storage w.
Proof.
  intros H. pose proof (generate_chapter_cases n s w) as Hc.
  rewrite H in Hc. destruct Hc as (-> & _ & Hst).
  split; [reflexivity|]. split; [|exact Hst].
  unfold generate_chapter in H. destruct (Py.truthy s); [reflexivity|].
  discriminate H.
Qed.

Lemma chapter_step_raises
    (plot : pyval) (entries : list pyval) (i : nat) (book : Book.t)
    (w w' : world) (e : exn) :
  Py.getitem_str plot "chapters" = Ok (PList entries) ->
  chapter_step plot (Z.of_nat i) book w = (Raise e, w') ->
  fails_at entries i e /\ storage w' = storage w.
Proof.
  intros Hp. unfold chapter_step, bind, lift, fails_at.
  rewrite Hp, getitem_int_nth.
  destruct (entries !! i) as [entry|]; [|intros [= <- <-]; now split].
  destruct entry as [| | | | | |d]; cbn [Py.getitem_str];
    try (intros [= <- <-]; now split).
  destruct (d !! "summary") as [s|]; [|intros [= <- <-]; now split].
  destruct (generate_chapter (Z.of_nat i + 1) s w) as [[c|e'] w1] eqn:Hg;
    [discriminate|].
  intros [= <- <-]. apply generate_chapter_raises in Hg. tauto.
Qed.

Lemma loop_raises (plot : pyval) (entries : list pyval) :
  Py.getitem_str plot "chapters" = Ok (PList entries) ->
  forall (n a : nat) (book : Book.t) (w w' : world) (e : exn),
    for_each (chapter_step plot) (map Z.of_nat (seq a n)) book w
    = (Raise e, w') ->
    exists i,
      a <= i < a + n
      /\ fails_at entries i e
      /\ (forall j, a <= j < i ->
            exists entry s,
              entries !! j = Some entry
              /\ Py.getitem_str entry "summary" = Ok s)
      /\ storage w' = storage w.
Proof.
  intros Hp. induction n as [|n IH]; intros a book w w' e H;
    [discriminate H|].
  cbn [seq map for_each] in H. unfold bind in H.
  pose proof (chapter_step_cases plot entries a book w Hp) as Hstep.
  destruct (chapter_step plot (Z.of_nat a) book w) as [[book1|e1] w1] eqn:Hs.
  - destruct Hstep as (entry & s & c & He & Hsum & _ & _ & _ & Hst).
    apply IH in H as (i & Hi & Hfail & Hbefore & Hst').
    exists i. split; [lia|]. split; [exact Hfail|]. split; [|congruence].
    intros j Hj. destruct (decide (j = a)) as [->|Hne]; [eauto|].
    apply Hbefore. lia.
  - injection H as <- <-.
    apply (chapter_step_raises plot entries a book w w1 e1 Hp) in Hs
      as [Hfail Hst].
    exists a. split; [lia|]. split; [exact Hfail|]. split; [|exact Hst].
    intros j Hj. lia.
Qed.

(** X15. When the chapter loop of [main] raises, it does so at the first
    position whose outline entry cannot be used, and the exception tells
    why: [IndexError] when the outline has no entry at that position,
    [TypeError] when the entry is not an object, [KeyError] when it is an
    object without a [summary] key, and the exception of the request when
    the summary counts as true and the backend does not answer.  Every
    position before it had an entry with a summary, and the loop has
    changed no file and no directory. *)
Theorem chapter_loop_exceptions
    (plot : pyval) (entries : list pyval) (n : Z) (book : Book.t)
    (w w' : world) (e : exn) :
  Py.getitem_str plot "chapters" = Ok (PList entries) ->
  for_each (chapter_step plot) (Py.range n) book w = (Raise e, w') ->
  exists i,
    i < Z.to_nat n
    /\ fails_at entries i e
    /\ (forall j, j < i ->
          exists entry s,
            entries !! j = Some entry
            /\ Py.getitem_str entry "summary" = Ok s)
    /\ storage w' = storage w.
Proof.
  intros Hp H. unfold Py.range in H.
  apply (loop_raises plot entries Hp) in H as (i & Hi & Hfail & Hbefore & Hst).
  exists i. split; [lia|]. split; [exact Hfail|]. split; [|exact Hst].
  intros j Hj. apply Hbefore. lia.
Qed.

Section Stages.

Variable json_loads : string -> option pyval.
Variable py_repr : pyval -> string.

Lemma create_characters_effect (w : world) :
  requests (snd (create_characters json_loads w)) = S (requests w)
  /\ storage (snd (create_characters json_loads w)) = storage w.
Proof.
  unfold create_characters, bind.
  destruct (generate_response_effect w) as [Hreq Hst].
  destruct (generate_response w) as [[response|e] w1]; cbn [snd] in *;
    [|now split].
  destruct (json_loads response) as [[]|]; now split.
Qed.

Lemma create_plot_outline_effect (w : world) :
  requests (snd (create_plot_outline json_loads w)) = S (requests w)
  /\ storage (snd (create_plot_outline json_loads w)) = storage w.
Proof.
  unfold create_plot_outline, bind.
  destruct (generate_response_effect w) as [Hreq Hst].
  destruct (generate_response w) as [[response|e] w1]; cbn [snd] in *;
    [|now split].
  cbn [print]. destruct (json_loads response) as [plot|]; [|now split].
  unfold lift.
  destruct (Py.contains "chapters" plot) as [[|]|]; try now split.
  destruct (Py.getitem_str plot "chapters") as [v|]; [|now split].
  cbn [ret]. destruct (is_list v); now split.
Qed.

(** [main] in terms of its stages. *)
Lemma main_cases (user_input : UserInput.t) (w : world) :
  match create_characters json_loads w with
  | (Raise e, w1) => main json_loads py_repr user_input w = (Raise e, w1)
  | (Ok characters, w1) =>
      match create_plot_outline json_loads w1 with
      | (Raise e, w2) => main json_loads py_repr user_input w = (Raise e, w2)
      | (Ok plot, w2) =>
          exists entries,
            Py.getitem_str plot "chapters" = Ok (PList entries)
            /\ match entries with
               | [] =>
                   main json_loads py_repr user_input w
                   = (Ok Aborted, printed EvNoChaptersExiting w2)
               | _ :: _ =>
                   match for_each (chapter_step plot)
                           (Py.range (UserInput.num_chapters user_input))
                           (Book.set_characters characters
                              (initialize_book user_input)) w2 with
                   | (Raise e, w3) =>
                       main json_loads py_repr user_input w = (Raise e, w3)
                   | (Ok book, w3) =>
                       main json_loads py_repr user_input w
                       = (Ok (Exported book "output/generated_novel.txt"),
                          printed (EvBookSaved "output/generated_novel.txt")
                            (snd (export_book py_repr book "output" w3)))
                   end
               end
      end
  end.
Proof.
  unfold main.
  destruct (create_characters json_loads w) as [[characters|e] w1] eqn:Hc;
    [|now rewrite (bind_raise _ _ _ _ _ Hc)].
  rewrite (bind_ok _ _ _ _ _ Hc).
  destruct (create_plot_outline json_loads w1) as [[plot|e] w2] eqn:Hp;
    [|now rewrite (bind_raise _ _ _ _ _ Hp)].
  rewrite (bind_ok _ _ _ _ _ Hp).
  destruct (create_plot_outline_returns_outline json_loads w1 plot w2 Hp)
    as [entries Hentries].
  exists entries. split; [exact Hentries|].
  rewrite (bind_ok (lift (Py.getitem_str plot "chapters")) _ w2
             (PList entries) w2) by (unfold lift; now rewrite Hentries).
  destruct entries as [|entry entries]; [reflexivity|]. cbn [Py.truthy negb].
  cbv zeta.
  destruct (for_each (chapter_step plot)
              (Py.range (UserInput.num_chapters user_input))
              (Book.set_characters characters (initialize_book user_input))
              w2) as [[book|e] w3] eqn:Hloop.
  - rewrite (bind_ok _ _ _ _ _ Hloop).
    rewrite (bind_ok _ _ _ _ _ (export_book_world py_repr book "output" w3)).
    rewrite export_book_world. reflexivity.
  - now rewrite (bind_raise _ _ _ _ _ Hloop).
Qed.

End Stages.

(** *** [main]: whole runs *)


Section Runs.

Variable json_loads : string -> option pyval.
Variable py_repr : pyval -> string.


(** The requests of [main] once the user input is read. *)
Lemma main_requests (user_input : UserInput.t) (w : world) :
  match main json_loads py_repr user_input w with
  | (Ok (Exported book _), w') =>
      requests w'
      = requests w + 2 + length (List.filter expanded (Book.chapters book))
  | (Ok Aborted, w') => requests w' = requests w + 2
  | (Raise _, w') =>
      requests w < requests w'
      /\ requests w'
         <= requests w + 2 + Z.to_nat (UserInput.num_chapters user_input)
  end.
Proof.
  pose proof (main_cases json_loads py_repr user_input w) as H.
  destruct (create_characters_effect json_loads w) as [Hr1 _].
  destruct (create_characters json_loads w) as [[cs|e] w1]; cbn [snd] in Hr1;
    [|rewrite H; lia].
  destruct (create_plot_outline_effect json_loads w1) as [Hr2 _].
  destruct (create_plot_outline json_loads w1) as [[plot|e] w2];
    cbn [snd] in Hr2; [|rewrite H; lia].
  destruct H as (entries & Hentries & H).
  destruct entries as [|entry entries].
  { rewrite H. cbn. lia. }
  pose proof (loop_cases plot (entry :: entries) Hentries
                (Z.to_nat (UserInput.num_chapters user_input)) 0
                (Book.set_characters cs (initialize_book user_input)) w2)
    as Hloop.
  unfold Py.range in H.
  destruct (for_each _ _ _ w2) as [[book|e] w3].
  - destruct Hloop as (cs' & -> & _ & Hr3 & _). rewrite H.
    rewrite export_book_world, with_chapters_chapters. cbn. lia.
  - destruct Hloop as (_ & _ & Hr3). rewrite H. lia.
Qed.

(** X12. [main] ends at its first [return] exactly when the character stage
    and the outline stage both return and the [chapters] of the outline is
    the empty list; the number of requested chapters plays no part. *)
Theorem aborts_exactly_on_empty_outline
    (user_input : UserInput.t) (w : world) :
  fst (main json_loads py_repr user_input w) = Ok Aborted
  <-> exists characters w1 plot w2,
        create_characters json_loads w = (Ok characters, w1)
        /\ create_plot_outline json_loads w1 = (Ok plot, w2)
        /\ Py.getitem_str plot "chapters" = Ok (PList []).
Proof.
  pose proof (main_cases json_loads py_repr user_input w) as H.
  destruct (create_characters json_loads w) as [[cs|e] w1].
  2: { rewrite H. split; [discriminate|]. intros (? & ? & ? & ? & [=] & _). }
  destruct (create_plot_outline json_loads w1) as [[plot|e] w2] eqn:Hp.
  2: { rewrite H. split; [discriminate|].
       intros (? & ? & ? & ? & [= <- <-] & Hp' & _). congruence. }
  destruct H as (entries & Hentries & H).
  destruct entries as [|entry entries].
  - rewrite H. split; [|reflexivity]. intros _. now exists cs, w1, plot, w2.
  - unfold Py.range in H. split.
    + destruct (for_each _ _ _ w2) as [[book|e] w3]; rewrite H; discriminate.
    + intros (? & ? & ? & ? & [= <- <-] & Hp' & Hnil).
      rewrite Hp in Hp'. injection Hp' as <- <-. congruence.
Qed.

(** X13. A run that reaches the export followed the outline: the outline
    had an entry with a [summary] key at every requested position, and the
    chapter at each position is the one [generate_chapter] builds from that
    entry's summary, the placeholder when it counts as false and otherwise
    a chapter that carries its position as number and the summary itself.
    The [title] and [chapter_number] of the entries play no part. *)
Theorem exported_run_follows_outline
    (user_input : UserInput.t) (w w1 w2 w' : world)
    (characters : list Character.t) (plot : pyval) (book : Book.t)
    (output_path : string) :
  create_characters json_loads w = (Ok characters, w1) ->
  create_plot_outline json_loads w1 = (Ok plot, w2) ->
  main json_loads py_repr user_input w
  = (Ok (Exported book output_path), w') ->
  exists entries,
    Py.getitem_str plot "chapters" = Ok (PList entries)
    /\ entries <> []
    /\ Z.to_nat (UserInput.num_chapters user_input) <= length entries
    /\ forall (i : nat) (chapter : Chapter.t),
         Book.chapters book !! i = Some chapter ->
         exists entry s,
           entries !! i = Some entry
           /\ Py.getitem_str entry "summary" = Ok s
           /\ chapter_of (Z.of_nat i + 1) s chapter.
Proof.
  intros Hc Hp Hmain.
  pose proof (main_cases json_loads py_repr user_input w) as H.
  rewrite Hc, Hp in H. destruct H as (entries & Hentries & H).
  exists entries. split; [exact Hentries|].
  destruct entries as [|entry entries]; [congruence|].
  split; [discriminate|].
  pose proof (loop_cases plot (entry :: entries) Hentries
                (Z.to_nat (UserInput.num_chapters user_input)) 0
                (Book.set_characters characters (initialize_book user_input))
                w2) as Hloop.
  unfold Py.range in H.
  destruct (for_each _ _ _ w2) as [[book'|e] w3]; [|congruence].
  rewrite H in Hmain. injection Hmain as <- _ _.
  destruct Hloop as (cs & -> & Hlen & _ & _ & Hall).
  rewrite with_chapters_chapters. cbn [Book.chapters Book.set_characters
    initialize_book app].
  split; [|exact Hall].
  destruct (Z.to_nat (UserInput.num_chapters user_input)) as [|n] eqn:Hn;
    [apply Nat.le_0_l|].
  destruct (lookup_lt_is_Some_2 cs n) as [c Hcn];
    [rewrite Hlen; apply Nat.lt_succ_diag_r|].
  destruct (Hall n c Hcn) as (e & s & He & _).
  apply lookup_lt_Some in He. exact He.
Qed.


(** X16. The book of a run that reaches the export has the title, the genre
    and the themes of the user input, the target audience [General], the
    metadata of [initialize_book], and the characters the character stage
    returned: the chapter loop changes the chapters only. *)
Theorem exported_book_fields (user_input : UserInput.t) (w : world) :
  match fst (main json_loads py_repr user_input w) with
  | Ok (Exported book _) =>
      Book.title book = UserInput.title user_input
      /\ Book.genre book = UserInput.genre user_input
      /\ Book.themes book = UserInput.themes user_input
      /\ Book.target_audience book = "General"
      /\ Book.metadata book = Book.metadata (initialize_book user_input)
      /\ fst (create_characters json_loads w) = Ok (Book.characters book)
  | _ => True
  end.
Proof.
  pose proof (main_cases json_loads py_repr user_input w) as H.
  destruct (create_characters json_loads w) as [[cs|e] w1];
    [|now rewrite H].
  destruct (create_plot_outline json_loads w1) as [[plot|e] w2];
    [|now rewrite H].
  destruct H as (entries & Hentries & H).
  destruct entries as [|entry entries]; [now rewrite H|].
  pose proof (loop_cases plot (entry :: entries) Hentries
                (Z.to_nat (UserInput.num_chapters user_input)) 0
                (Book.set_characters cs (initialize_book user_input)) w2)
    as Hloop.
  unfold Py.range in H.
  destruct (for_each _ _ _ w2) as [[book|e] w3]; rewrite H; cbn [fst];
    [|exact I].
  destruct Hloop as (cs' & -> & _).
  destruct (with_chapters_fields cs'
              (Book.set_characters cs (initialize_book user_input)))
    as (H1 & H2 & H3 & H4 & H5 & H6).
  rewrite H1, H2, H3, H4, H5, H6. cbn. repeat split.
Qed.

(** X17. When [json.loads] rejects the empty text and the first two replies
    of the backend give no text (a body without [response], say), the
    character stage returns no character, the outline stage the empty
    outline, and the run ends at the first [return] with two requests sent
    and the file system untouched. *)
Theorem unreadable_replies_abort
    (user_input : UserInput.t) (w : world) (body1 body2 : option pyval) :
  json_loads "" = None ->
  backend w (requests w) = Replied body1 ->
  readable_text body1 = "" ->
  backend w (S (requests w)) = Replied body2 ->
  readable_text body2 = "" ->
  fst (create_characters json_loads w) = Ok []
  /\ fst (main json_loads py_repr user_input w) = Ok Aborted
  /\ requests (snd (main json_loads py_repr user_input w)) = requests w + 2
  /\ storage (snd (main json_loads py_repr user_input w)) = storage w.
Proof.
  intros Hloads Hb1 Ht1 Hb2 Ht2.
  pose proof (generate_response_replied w body1 Hb1) as Hg1.
  rewrite completion_readable, Ht1 in Hg1.
  set (w1 := answered (snd (completion body1)) w) in *.
  assert (Hc : create_characters json_loads w
               = (Ok [], printed EvCharacterParseFailed w1)).
  { unfold create_characters. now rewrite (bind_ok _ _ _ _ _ Hg1), Hloads. }
  set (w1' := printed EvCharacterParseFailed w1) in *.
  pose proof (generate_response_replied w1' body2 Hb2) as Hg2.
  rewrite completion_readable, Ht2 in Hg2.
  set (w2 := answered (snd (completion body2)) w1') in *.
  assert (Hp : create_plot_outline json_loads w1'
               = (Ok empty_outline,
                  printed EvOutlineParseFailed
                    (printed (EvOutlineEcho "") w2))).
  { unfold create_plot_outline. rewrite (bind_ok _ _ _ _ _ Hg2).
    unfold bind at 1. cbn [print]. now rewrite Hloads. }
  split; [now rewrite Hc|].
  pose proof (main_cases json_loads py_repr user_input w) as H.
  rewrite Hc, Hp in H. destruct H as (entries & Hentries & H).
  injection Hentries as <-. rewrite H. cbn. repeat split. lia.
Qed.

End Runs.

(** *** [main] with its first statement *)

Section WholeRuns.

Variable py_int : string -> option Z.
Variable json_loads : string -> option pyval.
Variable py_repr : pyval -> string.

(** X11. No retries.  When the chapter-count line is no integer the run
    ends with [ValueError] before any request.  Otherwise the character
    stage and the outline stage send one request each, and every chapter
    that is expanded one more; a placeholder sends none.  So a run that
    reaches the export has sent two requests plus one per expanded chapter
    of its book, an aborted run has sent two, and a run that raises after
    the input was read has sent at least one and at most two plus the
    number of requested chapters. *)
Theorem requests_of_a_run
    (title genre themes num_chapters : string) (w : world) :
  match py_int num_chapters with
  | None =>
      main_from_lines py_int json_loads py_repr
        title genre themes num_chapters w
      = (Raise ValueError, w)
  | Some n =>
      match main_from_lines py_int json_loads py_repr
              title genre themes num_chapters w with
      | (Ok (Exported book _), w') =>
          requests w'
          = requests w + 2
            + length (List.filter expanded (Book.chapters book))
      | (Ok Aborted, w') => requests w' = requests w + 2
      | (Raise _, w') =>
          requests w < requests w' /\ requests w' <= requests w + 2 + Z.to_nat n
      end
  end.
Proof.
  unfold main_from_lines, get_user_input, bind, lift.
  destruct (py_int num_chapters) as [n|]; [|reflexivity].
  exact (main_requests json_loads py_repr
           (UserInput.mk title genre (split_comma themes) n) w).
Qed.

End WholeRuns.

(** *** [get_user_input] *)

Lemma split_comma_cons (s : string) :
  exists tok toks, split_comma s = tok :: toks.
Proof.
  induction s as [|c s (tok & toks & IH)]; cbn; [eauto|].
  destruct (Ascii.eqb c ","); [eauto|]. rewrite IH. eauto.
Qed.

Lemma join_split_comma (s : string) : Py.join "," (split_comma s) = s.
Proof.
  unfold Py.join. induction s as [|c s IH]; [reflexivity|]. cbn [split_comma].
  destruct (split_comma_cons s) as (tok & toks & Hs). rewrite Hs in *.
  destruct (Ascii.eqb_spec c ",") as [->|_].
  - change (String.concat "," ("" :: tok :: toks))
      with (String "," (String.concat "," (tok :: toks))).
    now rewrite IH.
  - destruct toks as [|tok' toks].
    + cbn in *. now rewrite IH.
    + change (String.concat "," (String c tok :: tok' :: toks))
        with (String c (String.concat "," (tok :: tok' :: toks))).
      now rewrite IH.
Qed.

Lemma commas_cons (c : ascii) (s : string) :
  commas (String c s) = (if Ascii.eqb c "," then 1 else 0) + commas s.
Proof.
  unfold commas, chars. cbn. now destruct (Ascii.eqb c ",").
Qed.

Lemma length_split_comma (s : string) :
  length (split_comma s) = S (commas s).
Proof.
  induction s as [|c s IH]; [reflexivity|].
  rewrite commas_cons. cbn [split_comma].
  destruct (split_comma_cons s) as (tok & toks & Hs). rewrite Hs in *.
  destruct (Ascii.eqb c ","); cbn in *; lia.
Qed.

Lemma split_comma_no_comma (s : string) :
  Forall (fun tok => commas tok = 0) (split_comma s).
Proof.
  induction s as [|c s IH]; [repeat constructor|]. cbn [split_comma].
  destruct (split_comma_cons s) as (tok & toks & Hs). rewrite Hs in *.
  inversion IH as [|? ? Htok Htoks]; subst.
  destruct (Ascii.eqb c ",") eqn:Hc.
  - constructor; [reflexivity|]. now constructor.
  - constructor; [|exact Htoks]. now rewrite commas_cons, Hc.
Qed.

(** X18. [get_user_input] raises [ValueError] when the last line is no
    integer.  Otherwise it returns the title and the genre as typed, the
    integer, and the themes line cut at every comma: there is one theme
    more than there are commas (so at least one, possibly empty), no theme
    contains a comma, and the themes joined by commas give the line
    back. *)
Theorem user_input_of_lines
    (py_int : string -> option Z) (title genre themes num_chapters : string) :
  match py_int num_chapters with
  | Some n =>
      exists user_input,
        get_user_input py_int title genre themes num_chapters = Ok user_input
        /\ UserInput.title user_input = title
        /\ UserInput.genre user_input = genre
        /\ UserInput.num_chapters user_input = n
        /\ length (UserInput.themes user_input) = S (commas themes)
        /\ Forall (fun theme => commas theme = 0) (UserInput.themes user_input)
        /\ Py.join "," (UserInput.themes user_input) = themes
  | None =>
      get_user_input py_int title genre themes num_chapters = Raise ValueError
  end.
Proof.
  unfold get_user_input. destruct (py_int num_chapters) as [n|]; [|reflexivity].
  eexists. split; [reflexivity|]. cbn.
  split; [reflexivity|]. split; [reflexivity|]. split; [reflexivity|].
  split; [apply length_split_comma|].
  split; [apply split_comma_no_comma|apply join_split_comma].
Qed.

Example split_comma_themes :
  split_comma "hope, betrayal,,x" = ["hope"; " betrayal"; ""; "x"].
Proof. reflexivity. Qed.

Example split_comma_empty : split_comma "" = [""].
Proof. reflexivity. Qed.

(** ** Sample runs of the further properties *)

Lemma non_object_outline_witness :
  create_plot_outline Sample2.json_loads
    (Sample.served [Sample2.chapters_word])
  = (Raise TypeError,
     printed (EvOutlineEcho Sample2.chapters_word)
       (answered (EvAIResponse Sample2.chapters_word)
          (Sample.served [Sample2.chapters_word]))).
Proof.
  destruct (non_object_outline Sample2.json_loads
              (Sample.served [Sample2.chapters_word])
              (answered (EvAIResponse Sample2.chapters_word)
                 (Sample.served [Sample2.chapters_word]))
              Sample2.chapters_word (PList [PStr "chapters"]))
    as [[_ H]|[Hno _]].
  - reflexivity.
  - reflexivity.
  - discriminate.
  - exact H.
  - destruct Hno. now left.
Defined.

Lemma unreadable_expansion_keeps_chapter_witness :
  fst (generate_chapter 2 (PStr "S") Sample2.failing)
  = Ok (Chapter.mk 2 "Chapter 2" (PStr "S") [Scene.mk "" None None] 0).
Proof.
  exact (proj1 (unreadable_expansion_keeps_chapter 2 (PStr "S")
                  Sample2.error_body Sample2.failing
                  eq_refl eq_refl eq_refl)).
Defined.

Lemma exported_run_follows_outline_witness :
  exists entries,
    entries = [PDict {[ "summary" := PStr "S1" ]}]
    /\ forall (i : nat) (chapter : Chapter.t),
         Book.chapters Sample.told_book !! i = Some chapter ->
         exists entry s,
           entries !! i = Some entry
           /\ Py.getitem_str entry "summary" = Ok s
           /\ chapter_of (Z.of_nat i + 1) s chapter.
Proof.
  set (w := Sample.always_served
              [Sample.no_characters; Sample.outline_one; "Once upon a time"]).
  destruct (exported_run_follows_outline Sample.json_loads Sample.py_repr
              (Sample.user 1) w
              (snd (create_characters Sample.json_loads w))
              (snd (create_plot_outline Sample.json_loads
                      (snd (create_characters Sample.json_loads w))))
              (snd (main Sample.json_loads Sample.py_repr (Sample.user 1) w))
              []
              (Sample.outline_of [PDict {[ "summary" := PStr "S1" ]}])
              Sample.told_book "output/generated_novel.txt")
    as (entries & Hentries & _ & _ & Hall).
  - vm_compute. reflexivity.
  - vm_compute. reflexivity.
  - vm_compute. reflexivity.
  - exists entries. split; [|exact Hall]. now injection Hentries as <-.
Defined.


Lemma unreadable_replies_abort_witness :
  fst (main Sample.json_loads Sample.py_repr (Sample.user 2) Sample2.failing)
  = Ok Aborted.
Proof.
  exact (proj1 (proj2 (unreadable_replies_abort
                         Sample.json_loads Sample.py_repr (Sample.user 2)
                         Sample2.failing Sample2.error_body
                         Sample2.error_body
                         eq_refl eq_refl eq_refl eq_refl eq_refl))).
Defined.

Lemma export_book_effects_witness :
  files (snd (export_book Sample.py_repr Sample.told_book "output"
                (Sample.served [])))
    !! "output/generated_novel.txt"
  = Some (book_text Sample.py_repr Sample.told_book)
  /\ "output" ∈ dirs (snd (export_book Sample.py_repr Sample.told_book
                             "output" (Sample.served []))).
Proof.
  destruct (export_book_effects Sample.py_repr Sample.told_book
              "output" "output/generated_novel.txt" (Sample.served [])
              (snd (export_book Sample.py_repr Sample.told_book "output"
                      (Sample.served []))))
    as (_ & Hfile & _ & Hdir & _).
  - vm_compute. reflexivity.
  - reflexivity.
  - split; [exact Hfile|exact Hdir].
Defined.

Lemma chapter_loop_exceptions_witness :
  exists i,
    i < 2 /\ fails_at [PDict {[ "summary" := PStr "S1" ]}] i IndexError.
Proof.
  set (plot := Sample.outline_of [PDict {[ "summary" := PStr "S1" ]}]).
  set (book := initialize_book (Sample.user 2)).
  destruct (chapter_loop_exceptions plot
              [PDict {[ "summary" := PStr "S1" ]}] 2 book
              (Sample.always_served [])
              (snd (for_each (chapter_step plot) (Py.range 2) book
                      (Sample.always_served [])))
              IndexError)
    as (i & Hi & Hfail & _).
  - reflexivity.
  - vm_compute. reflexivity.
  - exists i. split; [exact Hi|exact Hfail].
Defined.
